(** * coinbase5trader, Python back end: a shallow embedding

    The repository's Python server has two front ends over the Coinbase
    SDK: [main.py] (the FastAPI [/proxy] endpoint with
    [CoinbaseAPIClient.make_request]) and [mcp_server.py] (the stdio
    server [CoinbaseMCPServer] with [handle_request], [get_accounts],
    [get_product_ticker] and [place_order]).

    The embedding follows the source function by function.  Python values
    are an inductive type, dictionaries are finite maps with string keys,
    raised exceptions are an explicit result type, and the one mutable
    field of the stdio server ([self.client]) is threaded through a small
    state-and-exception monad.  The SDK ([coinbase.rest.RESTClient]) is
    outside the repository: it appears as a record of operations whose
    results are arbitrary.

    What is read off the environment rather than computed is an input:
    the module globals ([COINBASE_KEY_NAME], ...) and the SDK's client
    constructor are section variables, the reading of the event loop's
    clock is an argument [now] (a finite float, taken as a rational), and
    the body of an HTTP request and the lines of standard input arrive
    parsed.  What the interpreter decides from Unicode's tables and from
    its own settings (the upper case of a text, its characters, the
    decimal digits, the limit of [int] on long numbers) is a class,
    [Runtime], that every definition which needs it takes.  Logging has
    no effect on any result and is left out; so is the FastAPI plumbing
    around [proxy_request]. *)

From Stdlib Require Import ZArith QArith String Ascii List Bool Lia.
From Stdlib Require Import Floats.SpecFloat.
From stdpp Require Import base strings pretty gmap.

Set Warnings "-register-all".
Local Open Scope Z_scope.
Local Open Scope string_scope.

(* ===================================================================== *)
(** * Python values and the fragment of the runtime the code relies on   *)
(* ===================================================================== *)

Module Py.

(** Values as [json.loads] produces them, plus SDK response objects:
    [PyObj cls attrs] is an instance of class [cls] whose [__dict__] is
    [attrs]; such an object is taken to be a plain one (true, no
    container protocol, no methods the code calls).  Floats are binary64
    values ([spec_float]), so NaN and the infinities that [json.loads]
    accepts are present.  A [str] is the string of its UTF-8 bytes.  A
    dict is a finite map: the order of its keys, which Python keeps and
    shows when the dict is iterated, is not part of the map and is asked
    of the runtime ([key_order] below). *)
Inductive pyval : Type :=
| PyNone
| PyBool (b : bool)
| PyInt (z : Z)
| PyFloat (f : spec_float)
| PyStr (s : string)
| PyList (l : list pyval)
| PyDict (d : gmap string pyval)
| PyObj (cls : string) (attrs : gmap string pyval).

Abbreviation dict := (gmap string pyval).

(** Exceptions, told apart as far as the handlers of the source tell them
    apart.  [SdkError] stands for whatever the SDK raises. *)
Inductive exn : Type :=
| ValueError (msg : string)
| AttributeError (ty attr : string)
| TypeError (msg : string)
| KeyError (key : string)
| IndexError (msg : string)
| SdkError (msg : string)
| JSONDecodeError (msg : string)
| HTTPException (status_code : Z) (detail : pyval).

Inductive result (A : Type) : Type :=
| Ok (a : A)
| Raise (e : exn).
Arguments Ok {A} a.
Arguments Raise {A} e.

Definition bind {A B : Type} (m : result A) (k : A -> result B) : result B :=
  match m with
  | Ok a => k a
  | Raise e => Raise e
  end.

(** [type(v).__name__] *)
Definition type_name (v : pyval) : string :=
  match v with
  | PyNone => "NoneType"
  | PyBool _ => "bool"
  | PyInt _ => "int"
  | PyFloat _ => "float"
  | PyStr _ => "str"
  | PyList _ => "list"
  | PyDict _ => "dict"
  | PyObj cls _ => cls
  end.

(** [str(e)] *)
Definition str_exn (e : exn) : string :=
  match e with
  | ValueError msg => msg
  | AttributeError ty attr =>
      "'" +:+ ty +:+ "' object has no attribute '" +:+ attr +:+ "'"
  | TypeError msg => msg
  | KeyError key => "'" +:+ key +:+ "'"
  | IndexError msg => msg
  | SdkError msg => msg
  | JSONDecodeError msg => msg
  | HTTPException status_code detail =>
      (* never stringified by the source: its handler re-raises it *)
      pretty status_code +:+ ": " +:+
      match detail with PyStr s => s | _ => EmptyString end
  end.

(** Truth value testing: [None], [False], zero, and empty strings, lists
    and dicts are false; NaN is true; an object without [__bool__] or
    [__len__] is true. *)
Definition truthy (v : pyval) : bool :=
  match v with
  | PyNone => false
  | PyBool b => b
  | PyInt z => negb (z =? 0)%Z
  | PyFloat (S754_zero _) => false
  | PyFloat _ => true
  | PyStr s => negb (s =? EmptyString)%string
  | PyList l => match l with [] => false | _ => true end
  | PyDict d => negb (bool_decide (d = ∅))
  | PyObj _ _ => true
  end.

(** [a or b] *)
Definition py_or (a b : pyval) : pyval := if truthy a then a else b.

(** [os.getenv(name)] is a string or [None]. *)
Definition of_env (o : option string) : pyval :=
  match o with
  | Some s => PyStr s
  | None => PyNone
  end.

(** ** Strings *)

(** A [str] is a sequence of Unicode code points.  It is modelled by the
    string of its UTF-8 bytes: an ASCII character is one byte below 128,
    any other character is two to four bytes from 128 up.  Equality,
    concatenation, the prefix, suffix and substring tests, and splitting
    at an ASCII character are on the bytes what they are on the code
    points. *)
Definition is_ascii (c : ascii) : bool := (nat_of_ascii c <? 128)%nat.

Definition ascii_text (s : string) : bool :=
  forallb is_ascii (list_ascii_of_string s).

(** [str.upper] on a text of ASCII characters: the letters a-z change. *)
Definition upper_ascii (c : ascii) : ascii :=
  let n := nat_of_ascii c in
  if (Nat.leb 97 n && Nat.leb n 122)%bool then ascii_of_nat (n - 32) else c.

Fixpoint upper_text (s : string) : string :=
  match s with
  | EmptyString => EmptyString
  | String c s' => String (upper_ascii c) (upper_text s')
  end.

(** The ASCII decimal digits and their values. *)
Definition is_digit (c : ascii) : bool :=
  let n := nat_of_ascii c in (Nat.leb 48 n && Nat.leb n 57)%bool.

Definition digit_value (c : ascii) : Z := Z.of_nat (nat_of_ascii c) - 48.

(** The characters of an ASCII text, each a text of its own. *)
Definition single (c : ascii) : string := String c EmptyString.

(** ** The runtime

    What the interpreter answers from Unicode's tables, from its
    settings and from the history of a dict.  On ASCII text the tables
    are not needed, and the laws say what the answers are there; on
    other text nothing is assumed, so that what is proved holds of the
    tables the interpreter has. *)
Class Runtime : Type := {
  (** [s.upper()]: [str.upper] knows all of Unicode's letters *)
  upper : string -> string;
  (** [list(s)]: the characters of [s], each a [str] of its own *)
  chars : string -> list string;
  (** the value of a character that is a decimal digit (Unicode's
      category Nd, the ASCII digits among them): the characters that
      [\d] matches in a [str] pattern and that [int] reads *)
  digit : string -> option Z;
  (** [sys.get_int_max_str_digits()]: the longest run of digits that
      [int] converts, 4300 unless the interpreter is started otherwise,
      0 for no limit, and never a limit below 640 *)
  int_max_str_digits : Z;
  (** [list(d)]: the keys of [d] in the order they were inserted *)
  key_order : gmap string pyval -> list string;
  upper_ascii_text (s : string) :
    ascii_text s = true -> upper s = upper_text s;
  chars_empty : chars EmptyString = [];
  chars_ascii (c : ascii) (s : string) :
    is_ascii c = true -> chars (String c s) = single c :: chars s;
  digit_ascii (c : ascii) :
    is_ascii c = true ->
    digit (single c) = if is_digit c then Some (digit_value c) else None;
  int_max_str_digits_range :
    int_max_str_digits = 0 \/ 640 <= int_max_str_digits;
  key_order_keys (d : gmap string pyval) :
    key_order d ≡ₚ (map_to_list d).*1
}.

(** [s.startswith(p)] *)
Definition startswith (s p : string) : bool := String.prefix p s.

(** [s.endswith(p)] *)
Definition endswith (s p : string) : bool :=
  String.prefix (String.rev p) (String.rev s).

(** [needle in s], the substring test *)
Fixpoint contains (needle s : string) : bool :=
  String.prefix needle s ||
  match s with
  | EmptyString => false
  | String _ s' => contains needle s'
  end.

(** [s.split(sep)] for a one-character separator: never an empty list. *)
Fixpoint split (sep : ascii) (s : string) : list string :=
  match s with
  | EmptyString => [EmptyString]
  | String c s' =>
      if Ascii.eqb c sep then EmptyString :: split sep s'
      else match split sep s' with
           | x :: xs => String c x :: xs
           | [] => [String c EmptyString]
           end
  end.

(** [l[-2]] *)
Definition second_to_last (l : list string) : result string :=
  match rev l with
  | _ :: x :: _ => Ok x
  | _ => Raise (IndexError "list index out of range")
  end.

(** ** Operations that fail on values of the wrong type *)

(** [v == s] for a string literal [s] *)
Definition eq_str (v : pyval) (s : string) : bool :=
  match v with
  | PyStr s' => (s' =? s)%string
  | _ => false
  end.

(** [v is None] *)
Definition eq_none (v : pyval) : bool :=
  match v with
  | PyNone => true
  | _ => false
  end.

(** [v.get(k, default)]: only dicts have the method. *)
Definition get (v : pyval) (k : string) (default : pyval) : result pyval :=
  match v with
  | PyDict d => Ok (match d !! k with Some x => x | None => default end)
  | _ => Raise (AttributeError (type_name v) "get")
  end.

(** [k in v] for a string [k]: key test on a dict, membership on a list,
    substring test on a string; other values are not containers. *)
Definition has (k : string) (v : pyval) : result bool :=
  match v with
  | PyDict d => Ok (bool_decide (is_Some (d !! k)))
  | PyList l => Ok (existsb (fun x => eq_str x k) l)
  | PyStr s => Ok (contains k s)
  | _ => Raise (TypeError ("argument of type '" +:+ type_name v +:+ "' is not iterable"))
  end.

(** [v[k]] for a string [k] *)
Definition getitem (v : pyval) (k : string) : result pyval :=
  match v with
  | PyDict d => match d !! k with Some x => Ok x | None => Raise (KeyError k) end
  | PyList _ => Raise (TypeError "list indices must be integers or slices, not str")
  | PyStr _ => Raise (TypeError "string indices must be integers, not 'str'")
  | _ => Raise (TypeError ("'" +:+ type_name v +:+ "' object is not subscriptable"))
  end.

(** [v.upper()] *)
Definition upper_of `{Runtime} (v : pyval) : result string :=
  match v with
  | PyStr s => Ok (upper s)
  | _ => Raise (AttributeError (type_name v) "upper")
  end.

(** [v.startswith(p)] and [v.endswith(p)] *)
Definition startswith_of (v : pyval) (p : string) : result bool :=
  match v with
  | PyStr s => Ok (startswith s p)
  | _ => Raise (AttributeError (type_name v) "startswith")
  end.

Definition endswith_of (v : pyval) (p : string) : result bool :=
  match v with
  | PyStr s => Ok (endswith s p)
  | _ => Raise (AttributeError (type_name v) "endswith")
  end.

(** [v.split('/')[-2]] *)
Definition split_slash_of (v : pyval) : result string :=
  match v with
  | PyStr s => second_to_last (split "/"%char s)
  | _ => Raise (AttributeError (type_name v) "split")
  end.

(** [hasattr(v, '__dict__')] and [v.__dict__]: SDK objects only. *)
Definition to_dict (v : pyval) : pyval :=
  match v with
  | PyObj _ attrs => PyDict attrs
  | _ => v
  end.

(** [hasattr(v, '__iter__')] and the elements an iteration yields: the
    items of a list, the characters of a string, the keys of a dict. *)
Definition has_iter (v : pyval) : bool :=
  match v with
  | PyStr _ | PyList _ | PyDict _ => true
  | _ => false
  end.

Definition elements_of `{Runtime} (v : pyval) : list pyval :=
  match v with
  | PyList l => l
  | PyStr s => map PyStr (chars s)
  | PyDict d => map PyStr (key_order d)
  | _ => []
  end.

(** [len(v)] *)
Definition len `{Runtime} (v : pyval) : result Z :=
  match v with
  | PyStr s => Ok (Z.of_nat (List.length (chars s)))
  | PyList l => Ok (Z.of_nat (List.length l))
  | PyDict d => Ok (Z.of_nat (size d))
  | _ => Raise (TypeError ("object of type '" +:+ type_name v +:+ "' has no len()"))
  end.

(** [int(x)] of a finite clock reading: truncation towards zero. *)
Definition int_of_Q (q : Q) : Z := Z.quot (Qnum q) (Zpos (Qden q)).

(** [str(v)], as an f-string interpolates it.  The text of a float, a
    list, a dict or an object is the runtime's business: [repr] stands
    for it. *)
Definition str_of (repr : pyval -> string) (v : pyval) : string :=
  match v with
  | PyStr s => s
  | PyNone => "None"
  | PyBool true => "True"
  | PyBool false => "False"
  | PyInt z => pretty z
  | _ => repr v
  end.

(** ** The pattern [error (\d+)] of [re.search]

    The search goes over the characters of the text. *)

(** The literal [error ], character by character. *)
Definition error_ : list string := ["e"; "r"; "r"; "o"; "r"; " "].

(** What follows the literal [p] at the start of [cs], if [cs] starts
    so. *)
Fixpoint strip_literal (p cs : list string) : option (list string) :=
  match p, cs with
  | [], _ => Some cs
  | a :: p', b :: cs' => if (a =? b)%string then strip_literal p' cs' else None
  | _ :: _, [] => None
  end.

Section Search.

Context {runtime : Runtime}.

(** The longest run of decimal digits at the start of [cs]: [\d+] is
    greedy.  The run is given by the values of its digits. *)
Fixpoint digits_prefix (cs : list string) : list Z :=
  match cs with
  | c :: cs' =>
      match digit c with
      | Some d => d :: digits_prefix cs'
      | None => []
      end
  | [] => []
  end.

(** A match of the pattern anchored at the start of [cs]: group 1. *)
Definition match_here (cs : list string) : option (list Z) :=
  match strip_literal error_ cs with
  | Some rest =>
      match digits_prefix rest with
      | [] => None
      | ds => Some ds
      end
  | None => None
  end.

(** [re.search(r'error (\d+)', s)] on the characters of [s]: group 1 of
    the leftmost match. *)
Fixpoint re_search (cs : list string) : option (list Z) :=
  match match_here cs with
  | Some ds => Some ds
  | None =>
      match cs with
      | [] => None
      | _ :: cs' => re_search cs'
      end
  end.

(** The number a run of decimal digits denotes. *)
Definition decimal_value (ds : list Z) : Z :=
  fold_left (fun acc d => 10 * acc + d) ds 0.

(** Whether [int] refuses a run of [n] digits for its length. *)
Definition exceeds_limit (n : nat) : bool :=
  ((0 <? int_max_str_digits) && (int_max_str_digits <? Z.of_nat n))%Z.

(** The error [int] raises on a run of [n] digits that is too long. *)
Definition limit_error (n : nat) : exn :=
  ValueError
    ("Exceeds the limit (" +:+ pretty int_max_str_digits
     +:+ " digits) for integer string conversion: value has "
     +:+ pretty (Z.of_nat n)
     +:+ " digits; use sys.set_int_max_str_digits() to increase the limit").

(** [int(ds)] for a run of decimal digits *)
Definition int_of_digits (ds : list Z) : result Z :=
  if exceeds_limit (List.length ds) then Raise (limit_error (List.length ds))
  else Ok (decimal_value ds).

End Search.


(** ** [json.dumps] *)

(** The values [json.dumps] encodes with its default settings: all of
    them (NaN and the infinities included) but the objects, at any
    depth. *)
Fixpoint serializable (v : pyval) : bool :=
  match v with
  | PyObj _ _ => false
  | PyList l => forallb serializable l
  | PyDict d => map_fold (fun _ x rest => serializable x && rest) true d
  | _ => true
  end.

End Py.

Export Py.

Declare Scope result_scope.
Delimit Scope result_scope with result.
Notation "x <- m ;; k" := (Py.bind m (fun x => k))
  (at level 100, m at next level, right associativity) : result_scope.

(* ===================================================================== *)
(** * The SDK: [coinbase.rest.RESTClient]                                *)
(* ===================================================================== *)

Module SDK.

(** An authenticated client.  Each operation returns a value or raises;
    what it returns is up to the exchange. *)
Record RESTClient : Type := {
  get_accounts : result pyval;
  get_public_product : pyval -> result pyval;
  create_order : pyval -> result pyval;
  list_orders : result pyval
}.

End SDK.

(* ===================================================================== *)
(** * [main.py]: the HTTP proxy                                          *)
(* ===================================================================== *)

Module Main.

(** What the [/proxy] handler hands back to FastAPI: a returned value
    (status 200) or an [HTTPException] that left the handler. *)
Inductive response : Type :=
| Returns (result : pyval)
| Responds (status_code : Z) (detail : pyval).

(** Python's [a and b] on conditions that may raise: [b] is not
    evaluated when [a] is false. *)
Definition and_then (a b : result bool) : result bool :=
  match a with
  | Ok true => b
  | Ok false => Ok false
  | Raise e => Raise e
  end.

(** [method.upper() == verb] *)
Definition is_verb `{Runtime} (method : pyval) (verb : string) : result bool :=
  match upper_of method with
  | Ok u => Ok (u =? verb)%string
  | Raise e => Raise e
  end.

(** [re.search(r'error (\d+)', v)] *)
Definition search_of `{Runtime} (v : pyval) : result (option (list Z)) :=
  match v with
  | PyStr s => Ok (re_search (chars s))
  | _ => Raise (TypeError ("expected string or bytes-like object, got '"
                           +:+ type_name v +:+ "'"))
  end.

(** Lines 166-171 of [proxy_request]: the status emitted for an error;
    [int(match.group(1))] raises on a run of digits beyond the limit. *)
Definition status_code_of `{Runtime} (error : pyval) : result Z :=
  match has "Coinbase API error" error with
  | Ok true =>
      match search_of error with
      | Ok (Some group1) => int_of_digits group1
      | Ok None => Ok 500
      | Raise e => Raise e
      end
  | Ok false => Ok 500
  | Raise e => Raise e
  end.

Section Main.

Local Open Scope result_scope.

Context {runtime : Runtime}.

(** The module's globals, read from the environment at import time, the
    text the runtime gives to non-string values, and the SDK's client
    constructor [RESTClient(api_key=..., api_secret=...)] (a failing
    [import] of the SDK is a constructor that always raises).  [DEBUG]
    only switches logging on and is left out. *)
Variable py_repr : pyval -> string.
Variable COINBASE_KEY_NAME : option string.
Variable COINBASE_KEY_ID : option string.
Variable COINBASE_PRIVATE_KEY : option string.
Variable RESTClient : pyval -> pyval -> result SDK.RESTClient.

(** [CoinbaseAPIClient.get_client] *)
Definition get_client (key_name private_key key_id : pyval)
  : result SDK.RESTClient :=
  match RESTClient key_id private_key with
  | Ok client => Ok client
  | Raise e =>
      Raise (ValueError ("Failed to initialize Coinbase client: " +:+ str_exn e))
  end.

(** [CoinbaseAPIClient.make_request].  The whole body sits in a [try]
    whose handler returns [{'error': str(e)}], so the function returns a
    value on every input. *)
Definition make_request
    (method path key_name private_key key_id payload : pyval) : pyval :=
  match
    (client <- get_client key_name private_key key_id ;;
     accounts <- and_then (Ok (eq_str path "/api/v3/brokerage/accounts"))
                          (is_verb method "GET") ;;
     if accounts : bool then
       (result <- SDK.get_accounts client ;; Ok (to_dict result))
     else
     (ticker <- and_then (startswith_of path "/api/v3/brokerage/products/")
                  (and_then (endswith_of path "/ticker") (is_verb method "GET")) ;;
      if ticker : bool then
        (product_id <- split_slash_of path ;;
         result <- SDK.get_public_product client (PyStr product_id) ;;
         Ok (to_dict result))
      else
      (create <- and_then (Ok (eq_str path "/api/v3/brokerage/orders"))
                          (is_verb method "POST") ;;
       if create : bool then
         (result <- SDK.create_order client payload ;; Ok (to_dict result))
       else
       (listing <- and_then (Ok (eq_str path "/api/v3/brokerage/orders"))
                            (is_verb method "GET") ;;
        if listing : bool then
          (result <- SDK.list_orders client ;; Ok (to_dict result))
        else
          Ok (PyDict {[ "error" :=
                PyStr ("Endpoint " +:+ str_of py_repr method +:+ " "
                       +:+ str_of py_repr path
                       +:+ " not yet implemented in Python backend") ]})))))
  with
  | Ok result => result
  | Raise e => PyDict {[ "error" := PyStr (str_exn e) ]}
  end.

(** Lines 127-129 of [proxy_request]: each credential is the request's
    value when that is truthy and the module's default otherwise. *)
Definition resolve_credentials (body : pyval) : result (pyval * pyval * pyval) :=
  keyName <- get body "keyName" PyNone ;;
  keyId <- get body "keyId" PyNone ;;
  privateKey <- get body "privateKey" PyNone ;;
  Ok (py_or keyName (of_env COINBASE_KEY_NAME),
      py_or keyId (of_env COINBASE_KEY_ID),
      py_or privateKey (of_env COINBASE_PRIVATE_KEY)).

(** [proxy_request].  [request_json] is the outcome of
    [await request.json()]: the parsed body, or [JSONDecodeError]. *)
Definition proxy_request (request_json : result pyval) : response :=
  match
    (body <- request_json ;;
     credentials <- resolve_credentials body ;;
     let '(key_name, key_id, private_key) := credentials in
     method <- get body "method" PyNone ;;
     path <- get body "path" PyNone ;;
     payload <- get body "payload" PyNone ;;
     if negb (forallb truthy [key_name; private_key; method; path]) then
       Raise (HTTPException 400
                (PyStr "Missing required fields: keyName, privateKey, method, path"))
     else if eq_none key_name then
       Raise (HTTPException 400 (PyStr "keyName is required"))
     else if eq_none private_key then
       Raise (HTTPException 400 (PyStr "privateKey is required"))
     else
     (slash <- startswith_of path "/" ;;
      let path := if slash : bool then path
                  else PyStr ("/" +:+ str_of py_repr path) in
      let result := make_request method path key_name private_key key_id payload in
      failed <- has "error" result ;;
      if failed : bool then
        (error <- getitem result "error" ;;
         status_code <- status_code_of error ;;
         Raise (HTTPException status_code result))
      else Ok result))
  with
  | Ok result => Returns result
  | Raise (JSONDecodeError _) =>
      Responds 400 (PyStr "Invalid JSON in request body")
  | Raise (HTTPException status_code detail) => Responds status_code detail
  | Raise e => Responds 500 (PyStr (str_exn e))
  end.

End Main.

End Main.

(* ===================================================================== *)
(** * [mcp_server.py]: the stdio server                                  *)
(* ===================================================================== *)

Module McpServer.

(** The instance state of [class CoinbaseMCPServer]: [self.client] is
    [None] until a client has been constructed. *)
Record CoinbaseMCPServer : Type := { client : option SDK.RESTClient }.

(** Methods read and write [self] and may raise. *)
Definition M (A : Type) : Type :=
  CoinbaseMCPServer -> CoinbaseMCPServer * result A.

Definition ret {A : Type} (a : A) : M A := fun self => (self, Ok a).

Definition lift {A : Type} (r : result A) : M A := fun self => (self, r).

Definition bindM {A B : Type} (m : M A) (k : A -> M B) : M B :=
  fun self =>
    match m self with
    | (self', Ok a) => k a self'
    | (self', Raise e) => (self', Raise e)
    end.

(** [try: body  except Exception as e: handler(e)]; what [body] did to
    [self] before raising stays done. *)
Definition try_except {A : Type} (body : M A) (handler : exn -> M A) : M A :=
  fun self =>
    match body self with
    | (self', Ok a) => (self', Ok a)
    | (self', Raise e) => handler e self'
    end.

Declare Scope server_scope.
Delimit Scope server_scope with server.
Notation "x <- m ;; k" := (bindM m (fun x => k))
  (at level 100, m at next level, right associativity) : server_scope.

(** The four fields a [place_order] request must carry, in the order the
    loop checks them. *)
Definition required_fields : list string :=
  ["product_id"; "side"; "type"; "amount"].

(** [for field in required_fields: if field not in params: raise ...] *)
Fixpoint check_required (fields : list string) (params : pyval) : result unit :=
  match fields with
  | [] => Ok tt
  | field :: rest =>
      match has field params with
      | Ok true => check_required rest params
      | Ok false => Raise (ValueError (field +:+ " is required"))
      | Raise e => Raise e
      end
  end.

(** [f"order_{int(asyncio.get_event_loop().time())}"], where [now] is the
    reading of the event loop's monotonic clock, in seconds. *)
Definition client_order_id (now : Q) : string :=
  "order_" +:+ pretty (int_of_Q now).

(** [s in [a, b]] on strings *)
Definition one_of (s : string) (allowed : list string) : bool :=
  existsb (String.eqb s) allowed.

(** Lines 168-207 of [place_order]: validation of [params] and the order
    configuration built from them. *)
Definition build_order_config `{Runtime} (now : Q) (params : pyval) : result dict :=
  (_ <- check_required required_fields params ;;
   product_id <- getitem params "product_id" ;;
   side_in <- getitem params "side" ;;
   side <- upper_of side_in ;;
   type_in <- getitem params "type" ;;
   order_type <- upper_of type_in ;;
   amount <- getitem params "amount" ;;
   price <- get params "price" PyNone ;;
   if negb (one_of side ["BUY"; "SELL"]) then
     Raise (ValueError "side must be 'BUY' or 'SELL'")
   else if negb (one_of order_type ["MARKET"; "LIMIT"]) then
     Raise (ValueError "type must be 'MARKET' or 'LIMIT'")
   else
     let order_config : dict :=
       {[ "client_order_id" := PyStr (client_order_id now);
          "product_id" := product_id;
          "side" := PyStr side ]} in
     if (order_type =? "MARKET")%string then
       Ok (<[ "order_configuration" :=
                PyDict {[ "market_market_ioc" :=
                            PyDict {[ "quote_size" := amount ]} ]} ]> order_config)
     else if negb (truthy price) then
       Raise (ValueError "price is required for limit orders")
     else
       Ok (<[ "order_configuration" :=
                PyDict {[ "limit_limit_gtc" :=
                            PyDict {[ "base_size" := amount;
                                      "limit_price" := price ]} ]} ]> order_config)
  )%result.

(** [account.__dict__ if hasattr(account, '__dict__') else account for
    account in accounts], stored back under ['accounts'] when the SDK
    object has an iterable ['accounts']. *)
Definition flatten_accounts `{Runtime} (result : pyval) : pyval :=
  match result with
  | PyObj _ attrs =>
      match attrs !! "accounts" with
      | Some accounts =>
          if has_iter accounts then
            PyDict (<[ "accounts" := PyList (map to_dict (elements_of accounts)) ]> attrs)
          else PyDict attrs
      | None => PyDict attrs
      end
  | _ => result
  end.

Section Server.

Local Open Scope server_scope.

Context {runtime : Runtime}.

(** The module's globals, and the SDK's client constructor as in
    [Main]. *)
Variable py_repr : pyval -> string.
Variable DEBUG : bool.
Variable COINBASE_KEY_NAME : option string.
Variable COINBASE_KEY_ID : option string.
Variable COINBASE_PRIVATE_KEY : option string.
Variable RESTClient : pyval -> pyval -> result SDK.RESTClient.

(** [initialize_client]: never raises; leaves [self.client] alone when
    the credentials are missing or the constructor fails. *)
Definition initialize_client : M unit :=
  fun self =>
    if negb (truthy (of_env COINBASE_KEY_NAME))
       || negb (truthy (of_env COINBASE_PRIVATE_KEY))
    then (self, Ok tt)
    else
      match RESTClient (of_env COINBASE_KEY_ID) (of_env COINBASE_PRIVATE_KEY) with
      | Ok c => ({| client := Some c |}, Ok tt)
      | Raise _ => (self, Ok tt)
      end.

(** [__init__] *)
Definition init : CoinbaseMCPServer :=
  fst (initialize_client {| client := None |}).

(** The block every operation starts with:
    [if not self.client: self.initialize_client(); if not self.client:
    raise ValueError(...)].  It yields the client the operation uses. *)
Definition lazy_client : M SDK.RESTClient :=
  fun self =>
    match client self with
    | Some c => (self, Ok c)
    | None =>
        let self' := fst (initialize_client self) in
        match client self' with
        | Some c => (self', Ok c)
        | None =>
            (self', Raise (ValueError
               "Coinbase client not initialized - check environment variables"))
        end
    end.

(** The [if DEBUG:] block of [get_accounts]; [len] may raise. *)
Definition log_accounts_count (result_dict : pyval) : result unit :=
  if DEBUG then
    match result_dict with
    | PyDict d =>
        match len (default (PyList []) (d !! "accounts")) with
        | Ok _ => Ok tt
        | Raise e => Raise e
        end
    | _ => Ok tt
    end
  else Ok tt.

(** [get_accounts] *)
Definition get_accounts (params : pyval) : M dict :=
  try_except
    (c <- lazy_client ;;
     result <- lift (SDK.get_accounts c) ;;
     let result_dict := flatten_accounts result in
     _ <- lift (log_accounts_count result_dict) ;;
     id <- lift (get params "id" PyNone) ;;
     ret ({[ "result" := result_dict; "id" := id ]} : dict))
    (fun e =>
       id <- lift (get params "id" PyNone) ;;
       ret ({[ "error" := PyStr ("Failed to get accounts: " +:+ str_exn e);
               "id" := id ]} : dict)).

(** [get_product_ticker] *)
Definition get_product_ticker (params : pyval) : M dict :=
  try_except
    (c <- lazy_client ;;
     product_id <- lift (get params "product_id" PyNone) ;;
     _ <- lift (if truthy product_id then Ok tt
                else Raise (ValueError "product_id is required")) ;;
     result <- lift (SDK.get_public_product c product_id) ;;
     let result_dict := to_dict result in
     id <- lift (get params "id" PyNone) ;;
     ret ({[ "result" := result_dict; "id" := id ]} : dict))
    (fun e =>
       id <- lift (get params "id" PyNone) ;;
       ret ({[ "error" := PyStr ("Failed to get product ticker: " +:+ str_exn e);
               "id" := id ]} : dict)).

(** [place_order]; [now] is the clock reading taken for the order id. *)
Definition place_order (now : Q) (params : pyval) : M dict :=
  try_except
    (c <- lazy_client ;;
     order_config <- lift (build_order_config now params) ;;
     result <- lift (SDK.create_order c (PyDict order_config)) ;;
     let result_dict := to_dict result in
     id <- lift (get params "id" PyNone) ;;
     ret ({[ "result" := result_dict; "id" := id ]} : dict))
    (fun e =>
       id <- lift (get params "id" PyNone) ;;
       ret ({[ "error" := PyStr ("Failed to place order: " +:+ str_exn e);
               "id" := id ]} : dict)).

(** [handle_request] *)
Definition handle_request (now : Q) (request : pyval) : M dict :=
  try_except
    (method <- lift (get request "method" PyNone) ;;
     params <- lift (get request "params" (PyDict ∅)) ;;
     if eq_str method "coinbase_get_accounts" then get_accounts params
     else if eq_str method "coinbase_get_product_ticker" then get_product_ticker params
     else if eq_str method "coinbase_place_order" then place_order now params
     else
       (id <- lift (get request "id" PyNone) ;;
        ret ({[ "error" := PyStr ("Unknown method: " +:+ str_of py_repr method);
                "id" := id ]} : dict)))
    (fun e =>
       id <- lift (get request "id" PyNone) ;;
       ret ({[ "error" := PyStr (str_exn e); "id" := id ]} : dict)).

(** ** The loop of [main] *)

(** [json.dumps(v)] raises [TypeError] on a value it cannot encode; the
    text of that error, which names the class of the first object met, is
    the runtime's: [json_error] stands for it.  The encoded text itself
    is not modelled: a printed line is the mapping that was encoded. *)
Variable json_error : pyval -> string.

Definition json_dumps (v : pyval) : result unit :=
  if serializable v then Ok tt else Raise (TypeError (json_error v)).

(** [print(json.dumps(d))], the standard output being writable *)
Definition print_json (d : dict) : M dict :=
  _ <- lift (json_dumps (PyDict d)) ;; ret d.

(** One turn of the [while] loop once [readline] has returned a line.
    [line] is the outcome of reading and parsing it: the value
    [json.loads(line.strip())] returns, the [JSONDecodeError] it raises,
    or whatever reading the line raised.  The result is the line printed;
    an exception that leaves the turn leaves the loop. *)
Definition serve_line (now : Q) (line : result pyval) : M dict :=
  try_except
    (request <- lift line ;;
     response <- handle_request now request ;;
     print_json response)
    (fun e =>
       match e with
       | JSONDecodeError _ =>
           print_json {[ "error" := PyStr ("Invalid JSON: " +:+ str_exn e);
                         "id" := PyNone ]}
       | _ =>
           print_json {[ "error" := PyStr ("Server error: " +:+ str_exn e);
                         "id" := PyNone ]}
       end).

(** The [while True] loop on the lines that standard input holds before
    its end, each with the clock reading of its turn: the lines printed,
    the server when the loop ends, and the exception that ended it, if
    one did ([main] then logs it and exits with status 1). *)
Fixpoint serve (lines : list (Q * result pyval)) (self : CoinbaseMCPServer)
  : list dict * CoinbaseMCPServer * option exn :=
  match lines with
  | [] => ([], self, None)
  | (now, line) :: rest =>
      match serve_line now line self with
      | (self', Ok printed) =>
          let '(more, final, ended) := serve rest self' in
          (printed :: more, final, ended)
      | (self', Raise e) => ([], self', Some e)
      end
  end.

(** [main]: a fresh server, then the loop. *)
Definition main (lines : list (Q * result pyval))
  : list dict * CoinbaseMCPServer * option exn :=
  serve lines init.

End Server.

End McpServer.

(* ===================================================================== *)
(** * A sample environment                                               *)
(* ===================================================================== *)

(** Concrete stand-ins for what lies outside the repository, to run the
    definitions on: an exchange that rejects the account listing and
    accepts orders, and the requests of the specification's examples. *)
Module Sample.

(** The runtime cut down to ASCII, with the default limit of [int].
    Every text of the sample environment is ASCII, and there the laws of
    [Runtime] leave no choice: any runtime gives these answers.  No
    sample iterates a dict; its keys are listed in the map's order. *)
Definition digit (c : string) : option Z :=
  match c with
  | String a EmptyString => if is_digit a then Some (digit_value a) else None
  | _ => None
  end.

Definition chars (s : string) : list string :=
  map single (list_ascii_of_string s).

Definition key_order (d : dict) : list string := (map_to_list d).*1.

#[export] Instance runtime : Runtime := {|
  upper := upper_text;
  Py.chars := chars;
  Py.digit := digit;
  int_max_str_digits := 4300;
  Py.key_order := key_order;
  upper_ascii_text := fun s _ => eq_refl;
  chars_empty := eq_refl;
  chars_ascii := fun c s _ => eq_refl;
  digit_ascii := fun c _ => eq_refl;
  int_max_str_digits_range := ltac:(right; lia);
  key_order_keys := fun d => Permutation_refl _
|}.

Definition repr (v : pyval) : string := "<" +:+ type_name v +:+ ">".

Definition exchange : SDK.RESTClient := {|
  SDK.get_accounts := Raise (SdkError "HTTP error 404: Not Found");
  SDK.get_public_product := fun product_id =>
    Ok (PyObj "GetProductResponse" {[ "product_id" := product_id ]});
  SDK.create_order := fun order_config =>
    Ok (PyDict {[ "success" := PyBool true; "order" := order_config ]});
  SDK.list_orders := Raise (SdkError "Coinbase API error 429: rate limited")
|}.

Definition connect (api_key api_secret : pyval) : result SDK.RESTClient :=
  Ok exchange.

(** A [/proxy] body with its own credentials. *)
Definition body (method path : string) : dict :=
  {[ "keyName" := PyStr "organizations/o/apiKeys/k";
     "privateKey" := PyStr "secret";
     "method" := PyStr method;
     "path" := PyStr path ]}.

Definition proxy (method path : string) : Main.response :=
  Main.proxy_request repr None None None connect (Ok (PyDict (body method path))).

(** Order parameters. *)
Definition order (side type : string) : dict :=
  {[ "product_id" := PyStr "BTC-USD";
     "side" := PyStr side;
     "type" := PyStr type;
     "amount" := PyInt 1 ]}.

Definition limit_order : dict := <[ "price" := PyInt 100 ]> (order "buy" "limit").

(** A stdio server with credentials in its environment, and one
    without. *)
Definition ready : McpServer.CoinbaseMCPServer :=
  McpServer.init (Some "organizations/o/apiKeys/k") (Some "k") (Some "secret") connect.

Definition bare : McpServer.CoinbaseMCPServer :=
  McpServer.init None None None connect.

Definition serve (now : Q) (request : dict)
  : McpServer.CoinbaseMCPServer * result dict :=
  McpServer.handle_request repr true (Some "organizations/o/apiKeys/k")
    (Some "k") (Some "secret") connect now (PyDict request) ready.

(** An exchange whose answers are objects that hold objects, and a
    server connected to it. *)
Definition account (uuid currency : string) : pyval :=
  PyObj "Account" {[ "uuid" := PyStr uuid; "currency" := PyStr currency ]}.

Definition listing : dict :=
  {[ "accounts" := PyList [account "a-1" "BTC"; account "a-2" "USD"];
     "has_next" := PyBool false ]}.

Definition nested_exchange : SDK.RESTClient := {|
  SDK.get_accounts := Ok (PyObj "ListAccountsResponse" listing);
  SDK.get_public_product := fun product_id =>
    Ok (PyObj "GetProductResponse"
          {[ "product_id" := product_id; "session" := PyObj "Session" ∅ ]});
  SDK.create_order := fun order_config => Raise (SdkError "Insufficient funds");
  SDK.list_orders := Ok (PyDict ∅)
|}.

Definition nested_server : McpServer.CoinbaseMCPServer :=
  {| McpServer.client := Some nested_exchange |}.

(** The text of [json.dumps]'s error, naming the class of an object
    found in the value, and [main] on lines read at one second intervals
    with credentials in the environment. *)
Fixpoint blocker (v : pyval) : option string :=
  match v with
  | PyObj cls _ => Some cls
  | PyList l =>
      fold_right (fun x found => match blocker x with
                                 | Some cls => Some cls
                                 | None => found
                                 end) None l
  | PyDict d =>
      map_fold (fun _ x found => match blocker x with
                                 | Some cls => Some cls
                                 | None => found
                                 end) None d
  | _ => None
  end.

Definition json_error (v : pyval) : string :=
  "Object of type " +:+ default "object" (blocker v)
  +:+ " is not JSON serializable".

Definition serve_line (request : pyval) (self : McpServer.CoinbaseMCPServer)
  : McpServer.CoinbaseMCPServer * result dict :=
  McpServer.serve_line repr true None None None connect json_error 1
    (Ok request) self.

Definition run (lines : list (result pyval)) : list dict :=
  fst (fst (McpServer.main repr true (Some "organizations/o/apiKeys/k")
              (Some "k") (Some "secret") connect json_error
              (imap (fun i line => (inject_Z (Z.of_nat i), line)) lines))).

End Sample.

(* ===================================================================== *)
(** * Notions the properties are stated with                             *)
(* ===================================================================== *)

(** The credential resolver: the request's value when it is given and
    truthy, the configured default otherwise. *)
Definition prefer (requested : option pyval) (configured : option string) : pyval :=
  match requested with
  | Some v => if truthy v then v else of_env configured
  | None => of_env configured
  end.

(** The routing table of [make_request] on strings, as the code tests
    it: the verb is compared in upper case, and the ticker route takes
    every path that starts with the products prefix and ends with
    [/ticker]. *)
Definition routed `{Runtime} (method path : string) : bool :=
  (path =? "/api/v3/brokerage/accounts")%string && (upper method =? "GET")%string
  || startswith path "/api/v3/brokerage/products/" && endswith path "/ticker"
     && (upper method =? "GET")%string
  || (path =? "/api/v3/brokerage/orders")%string && (upper method =? "POST")%string
  || (path =? "/api/v3/brokerage/orders")%string && (upper method =? "GET")%string.





(** The upstream status pattern, on the characters of a message.
    [decimal cs ds]: [cs] is a non-empty run of decimal digits, of values
    [ds].  [status_at msg pre ds]: after the characters [pre], [msg] goes
    on with [error ], then a run of digits of values [ds], then something
    that is not a digit.  [leftmost_status msg ds]: the first such place
    in [msg]. *)
Definition decimal `{Runtime} (cs : list string) (ds : list Z) : Prop :=
  cs <> [] /\ Forall2 (fun c d => digit c = Some d) cs ds.

Definition no_digit_first `{Runtime} (cs : list string) : Prop :=
  match cs with
  | c :: _ => digit c = None
  | [] => True
  end.

Definition status_at `{Runtime} (msg pre : list string) (ds : list Z) : Prop :=
  exists cs rest : list string,
    msg = (pre ++ error_ ++ cs ++ rest)%list /\ decimal cs ds /\ no_digit_first rest.

Definition leftmost_status `{Runtime} (msg : list string) (ds : list Z) : Prop :=
  exists pre : list string,
    status_at msg pre ds /\
    forall (pre' : list string) (ds' : list Z),
      status_at msg pre' ds' -> (List.length pre <= List.length pre')%nat.

(** The values of the digits of a text of ASCII digits. *)
Definition digits_of (s : string) : list Z :=
  map digit_value (list_ascii_of_string s).

(** The message of the error the operations raise without a client. *)
Definition not_initialized : string :=
  "Coinbase client not initialized - check environment variables".

(** The three operations of the stdio server, and the id a response to
    [request] carries: the one in [params] for an operation whose params
    are a mapping, the request's own otherwise; [None] when the mapping
    looked at has none. *)
Definition recognized (method : pyval) : bool :=
  eq_str method "coinbase_get_accounts"
  || eq_str method "coinbase_get_product_ticker"
  || eq_str method "coinbase_place_order".

Definition is_dict (v : pyval) : bool :=
  match v with
  | PyDict _ => true
  | _ => false
  end.

Definition is_str (v : pyval) : bool :=
  match v with
  | PyStr _ => true
  | _ => false
  end.

Definition echoed_id (request : dict) : pyval :=
  if recognized (default PyNone (request !! "method")) then
    match default (PyDict ∅) (request !! "params") with
    | PyDict params => default PyNone (params !! "id")
    | _ => default PyNone (request !! "id")
    end
  else default PyNone (request !! "id").

(** The keys of [params] the order builder looks at. *)
Definition order_fields : list string :=
  ["product_id"; "side"; "type"; "amount"; "price"].

(** The two shapes of a response of the stdio server. *)
Definition normalized (response : dict) : Prop :=
  (exists result id : pyval, response = {[ "result" := result; "id" := id ]})
  \/ (exists (msg : string) (id : pyval),
        response = {[ "error" := PyStr msg; "id" := id ]}).

(** The line the loop prints for a request it could not read, and for one
    it could not answer. *)
Definition invalid_json (msg : string) : dict :=
  {[ "error" := PyStr ("Invalid JSON: " +:+ msg); "id" := PyNone ]}.

Definition server_error (msg : string) : dict :=
  {[ "error" := PyStr ("Server error: " +:+ msg); "id" := PyNone ]}.

(** Closing steps for the case analyses on what an operation of the
    stdio server does: it answers with a response, or it raises. *)
Ltac answer := eexists _, _; split; [reflexivity | reflexivity].
Ltac no_answer := eexists; reflexivity.
Ltac shaped :=
  eexists _, _; split; [reflexivity |];
  first [ left; eexists _, _; reflexivity | right; eexists _, _; reflexivity ].

(* ===================================================================== *)
(** * Properties of the HTTP proxy                                       *)
(* ===================================================================== *)

Section MainFacts.

Context {runtime : Runtime}.

Variable py_repr : pyval -> string.
Variable COINBASE_KEY_NAME : option string.
Variable COINBASE_KEY_ID : option string.
Variable COINBASE_PRIVATE_KEY : option string.
Variable RESTClient : pyval -> pyval -> result SDK.RESTClient.

Local Abbreviation resolve_credentials :=
  (Main.resolve_credentials COINBASE_KEY_NAME COINBASE_KEY_ID COINBASE_PRIVATE_KEY).
Local Abbreviation make_request := (Main.make_request py_repr RESTClient).
Local Abbreviation proxy_request :=
  (Main.proxy_request py_repr COINBASE_KEY_NAME COINBASE_KEY_ID
                      COINBASE_PRIVATE_KEY RESTClient).

Local Arguments String.append !_ _ / : simpl nomatch.

Lemma get_dict (d : dict) (k : string) (v : pyval) :
  get (PyDict d) k v = Ok (default v (d !! k)).
Proof. unfold get. destruct (d !! k); reflexivity. Qed.

Lemma py_or_prefer (d : dict) (k : string) (configured : option string) :
  py_or (default PyNone (d !! k)) (of_env configured) = prefer (d !! k) configured.
Proof. unfold py_or, prefer. destruct (d !! k); reflexivity. Qed.

Lemma resolve_credentials_dict (body : dict) :
  resolve_credentials (PyDict body) =
  Ok (prefer (body !! "keyName") COINBASE_KEY_NAME,
      prefer (body !! "keyId") COINBASE_KEY_ID,
      prefer (body !! "privateKey") COINBASE_PRIVATE_KEY).
Proof.
  unfold Main.resolve_credentials.
  rewrite !get_dict. cbn [bind]. rewrite !py_or_prefer. reflexivity.
Qed.

(** A request one of whose four required values is falsy after default
    substitution is answered with 400. *)
Lemma proxy_request_falsy (body : dict) :
  truthy (prefer (body !! "keyName") COINBASE_KEY_NAME)
  && truthy (prefer (body !! "privateKey") COINBASE_PRIVATE_KEY)
  && truthy (default PyNone (body !! "method"))
  && truthy (default PyNone (body !! "path")) = false ->
  proxy_request (Ok (PyDict body)) =
  Main.Responds 400
    (PyStr "Missing required fields: keyName, privateKey, method, path").
Proof.
  intros H. unfold Main.proxy_request.
  cbn [bind]. rewrite resolve_credentials_dict.
  cbn [bind]. rewrite !get_dict. cbn [bind forallb].
  rewrite andb_true_r, !andb_assoc, H. reflexivity.
Qed.

(** C3.  The credentials [proxy_request] works with are resolved field by
    field: each of keyName, keyId and privateKey is the request's own
    value when it carries one (a truthy one), and the configured default
    otherwise, whatever the other two fields are.  And when, after this
    resolution, the key name, the private key, the method or the path is
    still absent ([None]), the proxy answers with status 400. *)
Theorem proxy_request_credentials (body : dict) :
  let key_name := prefer (body !! "keyName") COINBASE_KEY_NAME in
  let key_id := prefer (body !! "keyId") COINBASE_KEY_ID in
  let private_key := prefer (body !! "privateKey") COINBASE_PRIVATE_KEY in
  let method := default PyNone (body !! "method") in
  let path := default PyNone (body !! "path") in
  resolve_credentials (PyDict body) = Ok (key_name, key_id, private_key) /\
  (key_name = PyNone \/ private_key = PyNone \/ method = PyNone \/ path = PyNone ->
   proxy_request (Ok (PyDict body)) =
   Main.Responds 400
     (PyStr "Missing required fields: keyName, privateKey, method, path")).
Proof.
  intros key_name key_id private_key method path. split.
  - apply resolve_credentials_dict.
  - intros H. apply proxy_request_falsy.
    fold key_name private_key method path.
    destruct H as [H | [H | [H | H]]]; rewrite H; cbn [truthy];
      rewrite ?andb_false_r; reflexivity.
Qed.



Lemma truthy_str (s : string) : s <> EmptyString -> truthy (PyStr s) = true.
Proof. destruct s; [congruence | reflexivity]. Qed.

(** C7 (amended).  A non-empty path without a leading slash is handled
    exactly as the same path with the slash prepended: the same request
    is dispatched, with the same result. *)
Theorem proxy_request_leading_slash (body : dict) (path : string) :
  body !! "path" = Some (PyStr path) ->
  path <> EmptyString ->
  startswith path "/" = false ->
  proxy_request (Ok (PyDict body))
  = proxy_request (Ok (PyDict (<[ "path" := PyStr ("/" +:+ path) ]> body))).
Proof.
  intros Hpath Hne Hslash. unfold Main.proxy_request.
  cbn [bind]. rewrite !resolve_credentials_dict. cbn [bind].
  rewrite !get_dict. cbn [bind].
  rewrite lookup_insert_eq.
  rewrite !lookup_insert_ne by discriminate.
  rewrite Hpath. cbn [from_option id forallb startswith_of bind str_of].
  rewrite Hslash.
  rewrite (truthy_str path Hne).
  assert (Hslash' : startswith ("/" +:+ path) "/" = true).
  { unfold startswith. cbn. destruct path; reflexivity. }
  rewrite Hslash'.
  assert (Htruthy : truthy (PyStr ("/" +:+ path)) = true) by reflexivity.
  rewrite Htruthy. reflexivity.
Qed.

(** ** The ticker route *)

Lemma append_assoc (a b c : string) : (a +:+ b) +:+ c = a +:+ (b +:+ c).
Proof. induction a as [| x a IH]; cbn; [reflexivity | now rewrite IH]. Qed.




















(** ** The status pattern *)

Lemma strip_literal_iff (p cs rest : list string) :
  strip_literal p cs = Some rest <-> cs = (p ++ rest)%list.
Proof.
  revert cs. induction p as [| a p IH]; intros cs; cbn.
  - split; congruence.
  - destruct cs as [| b cs]; [split; discriminate |].
    destruct (String.eqb_spec a b) as [-> | Hab].
    + rewrite IH. split; congruence.
    + split; [discriminate | congruence].
Qed.

Lemma digits_prefix_split (cs : list string) :
  exists run rest : list string,
    cs = (run ++ rest)%list /\
    Forall2 (fun c d => digit c = Some d) run (digits_prefix cs) /\
    no_digit_first rest.
Proof.
  induction cs as [| c cs (run & rest & Hcs & Hrun & Hrest)]; cbn.
  - exists [], []. repeat split. constructor.
  - destruct (digit c) as [d |] eqn:Hc.
    + exists (c :: run), rest. split; [cbn; congruence |].
      split; [constructor; assumption | assumption].
    + exists [], (c :: cs). split; [reflexivity |].
      split; [constructor | exact Hc].
Qed.

Lemma digits_prefix_run (cs rest : list string) (ds : list Z) :
  Forall2 (fun c d => digit c = Some d) cs ds ->
  no_digit_first rest ->
  digits_prefix (cs ++ rest) = ds.
Proof.
  intros Hds Hrest. induction Hds as [| c d cs ds Hc _ IH]; cbn.
  - destruct rest as [| c rest]; [reflexivity |]. cbn in *. now rewrite Hrest.
  - rewrite Hc, IH. reflexivity.
Qed.

Lemma match_here_iff (cs : list string) (ds : list Z) :
  match_here cs = Some ds <-> status_at cs [] ds.
Proof.
  unfold match_here, status_at, decimal. split.
  - destruct (strip_literal error_ cs) as [rest |] eqn:Hstrip; [| discriminate].
    apply strip_literal_iff in Hstrip.
    destruct (digits_prefix_split rest) as (run & rest' & Hrest & Hrun & Hnd).
    destruct (digits_prefix rest) as [| d ds0] eqn:Hdp; [discriminate |].
    intros [= <-]. exists run, rest'.
    split; [rewrite Hstrip, Hrest; reflexivity |].
    split; [| exact Hnd].
    split; [intros -> | exact Hrun]. inversion Hrun.
  - intros (run & rest & -> & [Hne Hrun] & Hnd).
    assert (Hstrip : strip_literal error_ ([] ++ error_ ++ run ++ rest)%list
                     = Some (run ++ rest)%list)
      by (apply strip_literal_iff; reflexivity).
    rewrite Hstrip, (digits_prefix_run _ _ _ Hrun Hnd).
    destruct Hrun; [congruence | reflexivity].
Qed.

Lemma status_at_cons (c c' : string) (msg pre : list string) (ds : list Z) :
  status_at (c :: msg) (c' :: pre) ds <-> c = c' /\ status_at msg pre ds.
Proof.
  unfold status_at. split.
  - intros (run & rest & Heq & Hd & Hn). cbn in Heq. injection Heq as -> ->.
    split; [reflexivity |]. exists run, rest.
    split; [reflexivity | split; assumption].
  - intros [-> (run & rest & -> & Hd & Hn)]. exists run, rest.
    split; [reflexivity | split; assumption].
Qed.

Lemma status_at_nil (pre : list string) (ds : list Z) : ~ status_at [] pre ds.
Proof. intros (run & rest & Heq & _). destruct pre; discriminate Heq. Qed.

Lemma re_search_none (msg : list string) :
  re_search msg = None <-> forall pre ds, ~ status_at msg pre ds.
Proof.
  induction msg as [| c msg IH]; cbn [re_search].
  - replace (match_here []) with (@None (list Z)) by reflexivity.
    split; [intros _ pre ds; apply status_at_nil | reflexivity].
  - destruct (match_here (c :: msg)) as [ds0 |] eqn:Hhere.
    + split; [discriminate |]. intros Hnone.
      apply match_here_iff in Hhere. destruct (Hnone _ _ Hhere).
    + rewrite IH. split.
      * intros Hnone [| c' pre] ds Hat.
        -- apply match_here_iff in Hat. congruence.
        -- apply status_at_cons in Hat as [_ Hat]. exact (Hnone _ _ Hat).
      * intros Hnone pre ds Hat. apply (Hnone (c :: pre) ds).
        apply status_at_cons. split; [reflexivity | assumption].
Qed.

Lemma status_at_functional (msg pre : list string) (ds ds' : list Z) :
  status_at msg pre ds -> status_at msg pre ds' -> ds = ds'.
Proof.
  revert msg. induction pre as [| c pre IH]; intros msg Hat Hat'.
  - apply match_here_iff in Hat, Hat'. congruence.
  - destruct msg as [| c' msg]; [destruct (status_at_nil _ _ Hat) |].
    apply status_at_cons in Hat as [_ Hat]. apply status_at_cons in Hat' as [_ Hat'].
    exact (IH _ Hat Hat').
Qed.

Lemma re_search_leftmost (msg : list string) (ds : list Z) :
  re_search msg = Some ds <-> leftmost_status msg ds.
Proof.
  unfold leftmost_status. revert ds.
  induction msg as [| c msg IH]; intros ds; cbn [re_search].
  - replace (match_here []) with (@None (list Z)) by reflexivity.
    split; [discriminate |]. intros (pre & Hat & _). destruct (status_at_nil _ _ Hat).
  - destruct (match_here (c :: msg)) as [ds0 |] eqn:Hhere.
    + apply match_here_iff in Hhere. split.
      * intros [= <-]. exists []. split; [assumption |].
        intros; cbn; lia.
      * intros (pre & Hat & Hleft). specialize (Hleft _ _ Hhere).
        destruct pre; [| cbn in Hleft; lia].
        f_equal. exact (status_at_functional _ _ _ _ Hhere Hat).
    + rewrite IH. split.
      * intros (pre & Hat & Hleft). exists (c :: pre). split.
        -- apply status_at_cons. split; [reflexivity | assumption].
        -- intros [| c' pre'] ds' Hat'.
           ++ apply match_here_iff in Hat'. congruence.
           ++ apply status_at_cons in Hat' as [_ Hat'].
              specialize (Hleft _ _ Hat'). cbn. lia.
      * intros ([| c' pre] & Hat & Hleft).
        -- apply match_here_iff in Hat. congruence.
        -- apply status_at_cons in Hat as [_ Hat]. exists pre. split; [assumption |].
           intros pre' ds' Hat'.
           assert (Hat2 : status_at (c :: msg) (c :: pre') ds')
             by (apply status_at_cons; split; [reflexivity | assumption]).
           specialize (Hleft _ _ Hat2). cbn in Hleft. lia.
Qed.

Lemma status_code_of_str (msg : string) :
  Main.status_code_of (PyStr msg)
  = if contains "Coinbase API error" msg
    then match re_search (chars msg) with
         | Some ds => int_of_digits ds
         | None => Ok 500
         end
    else Ok 500.
Proof.
  unfold Main.status_code_of. cbn [has Main.search_of].
  destruct (contains "Coinbase API error" msg); [| reflexivity].
  destruct (re_search (chars msg)); reflexivity.
Qed.

Lemma truthy_not_none (v : pyval) : truthy v = true -> eq_none v = false.
Proof. destruct v; [discriminate | reflexivity ..]. Qed.

(** What the proxy answers once the dispatcher has returned an error
    mapping: the status read off the message, or the failure to read it. *)
Lemma proxy_request_failed (body r : dict) (path msg : string) :
  let key_name := prefer (body !! "keyName") COINBASE_KEY_NAME in
  let key_id := prefer (body !! "keyId") COINBASE_KEY_ID in
  let private_key := prefer (body !! "privateKey") COINBASE_PRIVATE_KEY in
  let method := default PyNone (body !! "method") in
  let payload := default PyNone (body !! "payload") in
  let path' := if startswith path "/" then path else "/" +:+ path in
  truthy key_name = true ->
  truthy private_key = true ->
  truthy method = true ->
  body !! "path" = Some (PyStr path) ->
  path <> EmptyString ->
  make_request method (PyStr path') key_name private_key key_id payload = PyDict r ->
  r !! "error" = Some (PyStr msg) ->
  proxy_request (Ok (PyDict body))
  = match Main.status_code_of (PyStr msg) with
    | Ok status_code => Main.Responds status_code (PyDict r)
    | Raise (JSONDecodeError _) =>
        Main.Responds 400 (PyStr "Invalid JSON in request body")
    | Raise (HTTPException status_code detail) => Main.Responds status_code detail
    | Raise e => Main.Responds 500 (PyStr (str_exn e))
    end.
Proof.
  intros key_name key_id private_key method payload path'
         Hname Hkey Hmethod Hpath Hne Hresult Herror.
  unfold Main.proxy_request. cbn [bind].
  rewrite resolve_credentials_dict. cbn [bind].
  rewrite !get_dict. cbn [bind forallb].
  fold key_name key_id private_key method payload.
  rewrite Hpath. cbn [from_option id startswith_of bind str_of].
  rewrite Hname, Hkey, Hmethod, (truthy_str path Hne).
  rewrite (truthy_not_none _ Hname), (truthy_not_none _ Hkey).
  cbn [andb negb].
  replace (if startswith path "/" then PyStr path else PyStr ("/" +:+ path))
    with (PyStr path') by (unfold path'; destruct (startswith path "/"); reflexivity).
  rewrite Hresult. cbn [has bind getitem].
  rewrite Herror. rewrite bool_decide_eq_true_2 by eauto.
  cbn [bind]. destruct (Main.status_code_of (PyStr msg)); reflexivity.
Qed.

(** C5 (amended).  When the dispatcher returns an error mapping, the
    proxy raises an HTTP error.  Its status is 500, and its detail the
    mapping, unless the message contains the text [Coinbase API error];
    with that text, the status is the number NNN of the leftmost
    [error NNN] in the message, NNN being the longest run of decimal
    digits there, ASCII or not, and 500 again when the message has no
    [error NNN].  A run of digits longer than what [int] converts makes
    the conversion fail: the status is then 500, and the detail the text
    of that failure. *)
Theorem proxy_request_error_status (body r : dict) (path msg : string) :
  let key_name := prefer (body !! "keyName") COINBASE_KEY_NAME in
  let key_id := prefer (body !! "keyId") COINBASE_KEY_ID in
  let private_key := prefer (body !! "privateKey") COINBASE_PRIVATE_KEY in
  let method := default PyNone (body !! "method") in
  let payload := default PyNone (body !! "payload") in
  let path' := if startswith path "/" then path else "/" +:+ path in
  truthy key_name = true ->
  truthy private_key = true ->
  truthy method = true ->
  body !! "path" = Some (PyStr path) ->
  path <> EmptyString ->
  make_request method (PyStr path') key_name private_key key_id payload = PyDict r ->
  r !! "error" = Some (PyStr msg) ->
  exists (status_code : Z) (detail : pyval),
    proxy_request (Ok (PyDict body)) = Main.Responds status_code detail /\
    (contains "Coinbase API error" msg = false ->
     status_code = 500 /\ detail = PyDict r) /\
    ((forall pre ds, ~ status_at (chars msg) pre ds) ->
     status_code = 500 /\ detail = PyDict r) /\
    (forall ds : list Z,
       contains "Coinbase API error" msg = true ->
       leftmost_status (chars msg) ds ->
       (exceeds_limit (List.length ds) = false ->
        status_code = decimal_value ds /\ detail = PyDict r) /\
       (exceeds_limit (List.length ds) = true ->
        status_code = 500 /\
        detail = PyStr (str_exn (limit_error (List.length ds))))).
Proof.
  intros key_name key_id private_key method payload path'
         Hname Hkey Hmethod Hpath Hne Hresult Herror.
  rewrite (proxy_request_failed body r path msg Hname Hkey Hmethod Hpath Hne
             Hresult Herror).
  rewrite status_code_of_str.
  destruct (contains "Coinbase API error" msg) eqn:Hguard.
  - destruct (re_search (chars msg)) as [ds0 |] eqn:Hsearch.
    + pose proof (proj1 (re_search_leftmost _ _) Hsearch) as (pre & Hat & _).
      assert (Hsome : forall ds, leftmost_status (chars msg) ds -> ds = ds0).
      { intros ds Hleft. apply re_search_leftmost in Hleft. congruence. }
      assert (Hnot : ~ forall pre ds, ~ status_at (chars msg) pre ds)
        by (intros Hnone; exact (Hnone _ _ Hat)).
      unfold int_of_digits.
      destruct (exceeds_limit (List.length ds0)) eqn:Hlimit.
      * eexists _, _. split; [reflexivity |].
        split; [discriminate |]. split; [intros Hnone; destruct (Hnot Hnone) |].
        intros ds _ Hleft. rewrite (Hsome ds Hleft).
        split; [congruence | intros _; split; reflexivity].
      * eexists _, _. split; [reflexivity |].
        split; [discriminate |]. split; [intros Hnone; destruct (Hnot Hnone) |].
        intros ds _ Hleft. rewrite (Hsome ds Hleft).
        split; [intros _; split; reflexivity | congruence].
    + eexists _, _. split; [reflexivity |].
      split; [discriminate |]. split; [intros _; split; reflexivity |].
      intros ds _ Hleft. apply re_search_leftmost in Hleft. congruence.
  - eexists _, _. split; [reflexivity |].
    split; [intros _; split; reflexivity |].
    split; [intros _; split; reflexivity |].
    intros ds Habsurd. discriminate Habsurd.
Qed.

End MainFacts.

(* ===================================================================== *)
(** * Properties of the order builder                                    *)
(* ===================================================================== *)

Section OrderFacts.

Context {runtime : Runtime}.

Import McpServer.

Variable now : Q.

Lemma check_required_dict (fields : list string) (params : dict) :
  (forall field : string, In field fields -> is_Some (params !! field)) ->
  check_required fields (PyDict params) = Ok tt.
Proof.
  induction fields as [| field fields IH]; intros Hall; cbn; [reflexivity |].
  rewrite bool_decide_eq_true_2 by (apply Hall; left; reflexivity).
  apply IH. intros g Hg. apply Hall. right. exact Hg.
Qed.

Lemma check_required_missing (before after : list string) (field : string)
    (params : dict) :
  (forall g : string, In g before -> is_Some (params !! g)) ->
  params !! field = None ->
  check_required (before ++ field :: after) (PyDict params)
  = Raise (ValueError (field +:+ " is required")).
Proof.
  intros Hbefore Hmissing.
  induction before as [| g before IH]; cbn.
  - rewrite bool_decide_eq_false_2; [reflexivity |].
    rewrite Hmissing. intros [x Hx]. discriminate Hx.
  - rewrite bool_decide_eq_true_2 by (apply Hbefore; left; reflexivity).
    apply IH. intros h Hh. apply Hbefore. right. exact Hh.
Qed.

Lemma check_required_ok (fields : list string) (params : pyval) :
  check_required fields params = Ok tt ->
  forall field : string, In field fields -> has field params = Ok true.
Proof.
  induction fields as [| g fields IH]; cbn; intros Hok field Hin; [destruct Hin |].
  destruct (has g params) as [[] | e] eqn:Hg; try discriminate Hok.
  destruct Hin as [<- | Hin]; [exact Hg | exact (IH Hok field Hin)].
Qed.

(** The builder on a mapping that carries its four fields, [side] and
    [type] being strings: the two checks, then one of the two variants. *)
Lemma build_order_config_present
    (params : dict) (product_id amount : pyval) (side type : string) :
  params !! "product_id" = Some product_id ->
  params !! "side" = Some (PyStr side) ->
  params !! "type" = Some (PyStr type) ->
  params !! "amount" = Some amount ->
  build_order_config now (PyDict params) =
  if negb (one_of (upper side) ["BUY"; "SELL"]) then
    Raise (ValueError "side must be 'BUY' or 'SELL'")
  else if negb (one_of (upper type) ["MARKET"; "LIMIT"]) then
    Raise (ValueError "type must be 'MARKET' or 'LIMIT'")
  else if (upper type =? "MARKET")%string then
    Ok {[ "order_configuration" :=
            PyDict {[ "market_market_ioc" := PyDict {[ "quote_size" := amount ]} ]};
          "client_order_id" := PyStr (client_order_id now);
          "product_id" := product_id;
          "side" := PyStr (upper side) ]}
  else if negb (truthy (default PyNone (params !! "price"))) then
    Raise (ValueError "price is required for limit orders")
  else
    Ok {[ "order_configuration" :=
            PyDict {[ "limit_limit_gtc" :=
                        PyDict {[ "base_size" := amount;
                                  "limit_price" := default PyNone (params !! "price") ]} ]};
          "client_order_id" := PyStr (client_order_id now);
          "product_id" := product_id;
          "side" := PyStr (upper side) ]}.
Proof.
  intros Hproduct Hside Htype Hamount. unfold build_order_config.
  rewrite check_required_dict.
  2:{ intros field [<- | [<- | [<- | [<- | []]]]]; eauto. }
  cbn [bind getitem get upper_of].
  rewrite Hproduct, Hside, Htype, Hamount. cbn [bind upper_of].
  destruct (params !! "price"); reflexivity.
Qed.

(** Whatever [params] is, a configuration comes out only of a mapping
    with the four fields, and it has one of two shapes. *)
Lemma build_order_config_inv (params : pyval) (order_config : dict) :
  build_order_config now params = Ok order_config ->
  exists (d : dict) (product_id amount : pyval) (side type : string),
    params = PyDict d /\
    d !! "product_id" = Some product_id /\
    d !! "side" = Some (PyStr side) /\
    d !! "type" = Some (PyStr type) /\
    d !! "amount" = Some amount /\
    (upper side = "BUY" \/ upper side = "SELL") /\
    ((upper type = "MARKET" /\
      order_config =
      {[ "order_configuration" :=
           PyDict {[ "market_market_ioc" := PyDict {[ "quote_size" := amount ]} ]};
         "client_order_id" := PyStr (client_order_id now);
         "product_id" := product_id;
         "side" := PyStr (upper side) ]})
     \/
     (upper type = "LIMIT" /\
      truthy (default PyNone (d !! "price")) = true /\
      order_config =
      {[ "order_configuration" :=
           PyDict {[ "limit_limit_gtc" :=
                       PyDict {[ "base_size" := amount;
                                 "limit_price" := default PyNone (d !! "price") ]} ]};
         "client_order_id" := PyStr (client_order_id now);
         "product_id" := product_id;
         "side" := PyStr (upper side) ]})).
Proof.
  intros Hbuild.
  assert (Hreq : check_required required_fields params = Ok tt).
  { unfold build_order_config in Hbuild.
    destruct (check_required required_fields params) as [[] | e];
      [reflexivity | discriminate Hbuild]. }
  pose proof (check_required_ok _ _ Hreq) as Hhas.
  destruct params as [| b | z | f | s | l | d | cls attrs];
    try (specialize (Hhas "product_id" ltac:(left; reflexivity));
         discriminate Hhas);
    try (unfold build_order_config in Hbuild; rewrite Hreq in Hbuild;
         discriminate Hbuild).
  assert (Hsome : forall field, In field required_fields -> is_Some (d !! field)).
  { intros field Hin. specialize (Hhas field Hin). cbn in Hhas.
    injection Hhas as Hhas. apply bool_decide_eq_true_1 in Hhas. exact Hhas. }
  destruct (Hsome "product_id") as [product_id Hproduct]; [cbn; tauto |].
  destruct (Hsome "side") as [side_in Hside]; [cbn; tauto |].
  destruct (Hsome "type") as [type_in Htype]; [cbn; tauto |].
  destruct (Hsome "amount") as [amount Hamount]; [cbn; tauto |].
  assert (exists side, side_in = PyStr side) as [side ->].
  { unfold build_order_config in Hbuild. rewrite Hreq in Hbuild.
    cbn [bind getitem] in Hbuild. rewrite Hproduct, Hside in Hbuild.
    destruct side_in; try discriminate Hbuild. eauto. }
  assert (exists type, type_in = PyStr type) as [type ->].
  { unfold build_order_config in Hbuild. rewrite Hreq in Hbuild.
    cbn [bind getitem upper_of] in Hbuild.
    rewrite Hproduct, Hside, Htype in Hbuild. cbn [bind upper_of] in Hbuild.
    destruct type_in; try discriminate Hbuild. eauto. }
  rewrite (build_order_config_present d product_id amount side type) in Hbuild
    by assumption.
  exists d, product_id, amount, side, type.
  repeat (split; [first [reflexivity | assumption] |]).
  unfold one_of in Hbuild. cbn [existsb] in Hbuild.
  destruct (String.eqb_spec (upper side) "BUY") as [Hbuy | Hbuy];
    destruct (String.eqb_spec (upper side) "SELL") as [Hsell | Hsell];
    cbn in Hbuild; try discriminate Hbuild;
    (split; [tauto |]);
    destruct (String.eqb_spec (upper type) "MARKET") as [Hmarket | Hmarket];
    destruct (String.eqb_spec (upper type) "LIMIT") as [Hlimit | Hlimit];
    cbn in Hbuild; try discriminate Hbuild;
    try (left; split; [assumption | congruence]);
    destruct (truthy (default PyNone (d !! "price"))) eqn:Hprice;
    cbn in Hbuild; try discriminate Hbuild;
    right; (split; [assumption | split; [reflexivity | congruence]]).
Qed.

Lemma upper_of_ok (v : pyval) (u : string) :
  upper_of v = Ok u -> exists s : string, v = PyStr s /\ u = upper s.
Proof. destruct v; try discriminate. intros [= <-]. eauto. Qed.

(** C1.  On params that pass the field and enum checks, [side] and [type]
    being the values in upper case: a MARKET order is configured as
    [{market_market_ioc: {quote_size: amount}}], whatever price is
    supplied or not; a LIMIT order with a truthy price as
    [{limit_limit_gtc: {base_size: amount, limit_price: price}}]; a LIMIT
    order whose price is absent or falsy is a validation error, and no
    configuration comes out. *)
Theorem order_configuration_by_type
    (params : dict) (product_id side_in type_in amount : pyval)
    (side type : string) :
  params !! "product_id" = Some product_id ->
  params !! "side" = Some side_in ->
  params !! "type" = Some type_in ->
  params !! "amount" = Some amount ->
  upper_of side_in = Ok side ->
  upper_of type_in = Ok type ->
  side = "BUY" \/ side = "SELL" ->
  (type = "MARKET" ->
   exists order_config : dict,
     build_order_config now (PyDict params) = Ok order_config /\
     order_config !! "order_configuration" =
       Some (PyDict {[ "market_market_ioc" :=
                         PyDict {[ "quote_size" := amount ]} ]}) /\
     (forall price : pyval,
        build_order_config now (PyDict (<[ "price" := price ]> params))
        = Ok order_config) /\
     build_order_config now (PyDict (delete "price" params)) = Ok order_config)
  /\
  (type = "LIMIT" ->
   forall price : pyval,
     params !! "price" = Some price ->
     truthy price = true ->
     exists order_config : dict,
       build_order_config now (PyDict params) = Ok order_config /\
       order_config !! "order_configuration" =
         Some (PyDict {[ "limit_limit_gtc" :=
                           PyDict {[ "base_size" := amount;
                                     "limit_price" := price ]} ]}))
  /\
  (type = "LIMIT" ->
   truthy (default PyNone (params !! "price")) = false ->
   build_order_config now (PyDict params)
   = Raise (ValueError "price is required for limit orders")).
Proof.
  intros Hproduct Hside Htype Hamount Hupper_side Hupper_type Hallowed.
  apply upper_of_ok in Hupper_side as (side0 & -> & ->).
  apply upper_of_ok in Hupper_type as (type0 & -> & ->).
  assert (Hone : one_of (upper side0) ["BUY"; "SELL"] = true).
  { destruct Hallowed as [-> | ->]; reflexivity. }
  split; [| split].
  - intros Hmarket. eexists. split; [| split; [| split]].
    + rewrite (build_order_config_present params product_id amount side0 type0)
        by assumption.
      rewrite Hone, Hmarket. reflexivity.
    + reflexivity.
    + intros price.
      rewrite (build_order_config_present _ product_id amount side0 type0)
        by (rewrite lookup_insert_ne by discriminate; assumption).
      rewrite Hone, Hmarket. reflexivity.
    + rewrite (build_order_config_present _ product_id amount side0 type0)
        by (rewrite lookup_delete_ne by discriminate; assumption).
      rewrite Hone, Hmarket. reflexivity.
  - intros Hlimit price Hprice Htruthy. eexists. split.
    + rewrite (build_order_config_present params product_id amount side0 type0)
        by assumption.
      rewrite Hone, Hlimit, Hprice. cbn [from_option id]. rewrite Htruthy.
      reflexivity.
    + reflexivity.
  - intros Hlimit Hfalsy.
    rewrite (build_order_config_present params product_id amount side0 type0)
      by assumption.
    rewrite Hone, Hlimit, Hfalsy. reflexivity.
Qed.

Lemma upper_of_not_str (v : pyval) :
  is_str v = false -> upper_of v = Raise (AttributeError (type_name v) "upper").
Proof. destruct v; try reflexivity. discriminate. Qed.

(** C2 (amended).  A missing required field is a validation error naming
    it (the first one missing, in the order product_id, side, type,
    amount).  With the four fields present, [side] and then [type] are
    put in upper case before anything is checked: a side or a type that
    is not a string has no upper case, and the call fails with the
    attribute error of that, whatever the other field is.  When both are
    strings, the checks are made on their upper case: a side other than
    BUY or SELL, or a type other than MARKET or LIMIT, is a validation
    error naming the allowed values.  So [buy] passes as BUY, and [hold]
    with a string for its type is rejected. *)
Theorem order_validation (params : dict) :
  (forall (before after : list string) (field : string),
     required_fields = (before ++ field :: after)%list ->
     (forall g : string, In g before -> is_Some (params !! g)) ->
     params !! field = None ->
     build_order_config now (PyDict params)
     = Raise (ValueError (field +:+ " is required")))
  /\
  (forall (product_id side_in type_in amount : pyval),
     params !! "product_id" = Some product_id ->
     params !! "side" = Some side_in ->
     params !! "type" = Some type_in ->
     params !! "amount" = Some amount ->
     (is_str side_in = false ->
      build_order_config now (PyDict params)
      = Raise (AttributeError (type_name side_in) "upper"))
     /\
     (is_str side_in = true ->
      is_str type_in = false ->
      build_order_config now (PyDict params)
      = Raise (AttributeError (type_name type_in) "upper"))
     /\
     (forall side type : string,
        upper_of side_in = Ok side ->
        upper_of type_in = Ok type ->
        (~ (side = "BUY" \/ side = "SELL") ->
         build_order_config now (PyDict params)
         = Raise (ValueError "side must be 'BUY' or 'SELL'"))
        /\
        (side = "BUY" \/ side = "SELL" ->
         ~ (type = "MARKET" \/ type = "LIMIT") ->
         build_order_config now (PyDict params)
         = Raise (ValueError "type must be 'MARKET' or 'LIMIT'"))
        /\
        (side = "BUY" \/ side = "SELL" ->
         type = "MARKET" \/ type = "LIMIT" ->
         build_order_config now (PyDict params)
         = Raise (ValueError "price is required for limit orders")
         \/ exists order_config : dict,
              build_order_config now (PyDict params) = Ok order_config /\
              order_config !! "side" = Some (PyStr side))
        /\
        (side_in = PyStr "buy" -> side = "BUY")
        /\
        (side_in = PyStr "hold" ->
         build_order_config now (PyDict params)
         = Raise (ValueError "side must be 'BUY' or 'SELL'")))).
Proof.
  split.
  - intros before after field Hfields Hbefore Hmissing.
    unfold build_order_config. rewrite Hfields.
    rewrite (check_required_missing before after field params Hbefore Hmissing).
    reflexivity.
  - intros product_id side_in type_in amount Hproduct Hside Htype Hamount.
    assert (Hrequired : check_required required_fields (PyDict params) = Ok tt).
    { apply check_required_dict.
      intros field [<- | [<- | [<- | [<- | []]]]]; eauto. }
    split; [| split].
    + intros Hnot. unfold build_order_config. rewrite Hrequired.
      cbn [bind getitem]. rewrite Hproduct, Hside. cbn [bind].
      rewrite (upper_of_not_str _ Hnot). reflexivity.
    + intros Hstr Hnot. unfold build_order_config. rewrite Hrequired.
      cbn [bind getitem]. rewrite Hproduct, Hside, Htype. cbn [bind].
      destruct side_in as [| | | | side0 | | |]; try discriminate Hstr.
      cbn [upper_of bind]. rewrite (upper_of_not_str _ Hnot). reflexivity.
    + intros side type Hupper_side Hupper_type.
      apply upper_of_ok in Hupper_side as (side0 & -> & ->).
      apply upper_of_ok in Hupper_type as (type0 & -> & ->).
      rewrite (build_order_config_present params product_id amount side0 type0)
        by assumption.
      unfold one_of. cbn [existsb].
      repeat split.
      * intros Hside_bad.
        destruct (String.eqb_spec (upper side0) "BUY") as [Hbuy | Hbuy];
          [destruct Hside_bad; left; exact Hbuy |].
        destruct (String.eqb_spec (upper side0) "SELL") as [Hsell | Hsell];
          [destruct Hside_bad; right; exact Hsell |].
        reflexivity.
      * intros Hallowed Htype_bad.
        destruct (String.eqb_spec (upper type0) "MARKET") as [Hmarket | Hmarket];
          [destruct Htype_bad; left; exact Hmarket |].
        destruct (String.eqb_spec (upper type0) "LIMIT") as [Hlimit | Hlimit];
          [destruct Htype_bad; right; exact Hlimit |].
        destruct Hallowed as [-> | ->]; reflexivity.
      * intros Hallowed Hkind.
        assert (Hone : (upper side0 =? "BUY")%string
                       || ((upper side0 =? "SELL")%string || false) = true)
          by (destruct Hallowed as [-> | ->]; reflexivity).
        rewrite Hone.
        destruct Hkind as [-> | ->]; cbn.
        -- right. eexists. split; reflexivity.
        -- destruct (truthy (default PyNone (params !! "price"))); cbn.
           ++ right. eexists. split; reflexivity.
           ++ left. reflexivity.
      * intros [= ->]. apply upper_ascii_text. reflexivity.
      * intros [= ->]. rewrite (upper_ascii_text "hold") by reflexivity.
        reflexivity.
Qed.

Lemma build_order_config_token (params : pyval) (order_config : dict) :
  build_order_config now params = Ok order_config ->
  order_config !! "client_order_id" = Some (PyStr (client_order_id now)).
Proof.
  intros Hbuild.
  destruct (build_order_config_inv _ _ Hbuild)
    as (d & product_id & amount & side & type & _ & _ & _ & _ & _ & _
        & [[_ ->] | (_ & _ & ->)]); reflexivity.
Qed.

(** C10.  A configuration that comes out of the builder has exactly the
    four top-level keys client_order_id, product_id, side and
    order_configuration, for the market and for the limit variant; its
    side is the request's side in upper case and its product_id the
    request's. *)
Theorem order_config_keys (params : pyval) (order_config : dict) :
  build_order_config now params = Ok order_config ->
  dom order_config
  = ({[ "client_order_id"; "product_id"; "side"; "order_configuration" ]}
     : gset string) /\
  exists (d : dict) (side : string),
    params = PyDict d /\
    d !! "side" = Some (PyStr side) /\
    order_config !! "side" = Some (PyStr (upper side)) /\
    order_config !! "product_id" = d !! "product_id" /\
    order_config !! "client_order_id" = Some (PyStr (client_order_id now)) /\
    (exists variant : string,
       (variant = "market_market_ioc" \/ variant = "limit_limit_gtc") /\
       exists sizes : dict,
         order_config !! "order_configuration"
         = Some (PyDict {[ variant := PyDict sizes ]})).
Proof.
  intros Hbuild.
  destruct (build_order_config_inv _ _ Hbuild)
    as (d & product_id & amount & side & type & -> & Hproduct & Hside & Htype
        & Hamount & Hallowed & [[Hmarket ->] | (Hlimit & Hprice & ->)]).
  - split.
    + rewrite !dom_insert_L, dom_singleton_L. set_solver.
    + exists d, side. repeat split; try assumption; try reflexivity.
      * rewrite Hproduct. reflexivity.
      * exists "market_market_ioc". split; [left; reflexivity |].
        eexists. reflexivity.
  - split.
    + rewrite !dom_insert_L, dom_singleton_L. set_solver.
    + exists d, side. repeat split; try assumption; try reflexivity.
      * rewrite Hproduct. reflexivity.
      * exists "limit_limit_gtc". split; [right; reflexivity |].
        eexists. reflexivity.
Qed.

Lemma client_order_id_inj (now1 now2 : Q) :
  client_order_id now1 = client_order_id now2 <-> int_of_Q now1 = int_of_Q now2.
Proof.
  unfold client_order_id. split.
  - intros Heq. injection Heq as Heq. exact (pretty_Z_inj _ _ Heq).
  - intros ->. reflexivity.
Qed.

End OrderFacts.

(** C8 (amended).  The order token is [order_] followed by the whole
    seconds of the clock reading taken at the call.  Two built
    configurations carry the same token exactly when their calls fall in
    the same whole second; calls in different seconds get different
    tokens. *)
Theorem client_order_id_per_second {runtime : Runtime}
    (now1 now2 : Q) (params1 params2 : pyval) (config1 config2 : dict) :
  McpServer.build_order_config now1 params1 = Ok config1 ->
  McpServer.build_order_config now2 params2 = Ok config2 ->
  config1 !! "client_order_id"
    = Some (PyStr ("order_" +:+ pretty (int_of_Q now1))) /\
  config2 !! "client_order_id"
    = Some (PyStr ("order_" +:+ pretty (int_of_Q now2))) /\
  (config1 !! "client_order_id" = config2 !! "client_order_id"
   <-> int_of_Q now1 = int_of_Q now2).
Proof.
  intros Hbuild1 Hbuild2.
  pose proof (build_order_config_token now1 _ _ Hbuild1) as Hid1.
  pose proof (build_order_config_token now2 _ _ Hbuild2) as Hid2.
  split; [exact Hid1 |]. split; [exact Hid2 |].
  rewrite Hid1, Hid2. rewrite <- client_order_id_inj.
  split; [intros Heq; congruence | intros ->; reflexivity].
Qed.

(* ===================================================================== *)
(** * Properties of the stdio server                                     *)
(* ===================================================================== *)

Section ServerFacts.

Context {runtime : Runtime}.

Import McpServer.

Variable py_repr : pyval -> string.
Variable DEBUG : bool.
Variable COINBASE_KEY_NAME : option string.
Variable COINBASE_KEY_ID : option string.
Variable COINBASE_PRIVATE_KEY : option string.
Variable RESTClient : pyval -> pyval -> result SDK.RESTClient.

Local Abbreviation initialize_client :=
  (McpServer.initialize_client COINBASE_KEY_NAME COINBASE_KEY_ID
                               COINBASE_PRIVATE_KEY RESTClient).
Local Abbreviation lazy_client :=
  (McpServer.lazy_client COINBASE_KEY_NAME COINBASE_KEY_ID
                         COINBASE_PRIVATE_KEY RESTClient).
Local Abbreviation get_accounts :=
  (McpServer.get_accounts DEBUG COINBASE_KEY_NAME COINBASE_KEY_ID
                          COINBASE_PRIVATE_KEY RESTClient).
Local Abbreviation get_product_ticker :=
  (McpServer.get_product_ticker COINBASE_KEY_NAME COINBASE_KEY_ID
                                COINBASE_PRIVATE_KEY RESTClient).
Local Abbreviation place_order :=
  (McpServer.place_order COINBASE_KEY_NAME COINBASE_KEY_ID
                         COINBASE_PRIVATE_KEY RESTClient).
Local Abbreviation handle_request :=
  (McpServer.handle_request py_repr DEBUG COINBASE_KEY_NAME COINBASE_KEY_ID
                            COINBASE_PRIVATE_KEY RESTClient).

(** ** Client initialization *)

Lemma initialize_client_no_credentials (self : CoinbaseMCPServer) :
  truthy (of_env COINBASE_KEY_NAME) = false
  \/ truthy (of_env COINBASE_PRIVATE_KEY) = false ->
  initialize_client self = (self, Ok tt).
Proof.
  intros H. unfold McpServer.initialize_client.
  destruct H as [-> | ->]; [| rewrite orb_true_r]; reflexivity.
Qed.

Lemma initialize_client_failed (self : CoinbaseMCPServer) :
  client (fst (initialize_client self)) = None ->
  fst (initialize_client self) = self.
Proof.
  unfold McpServer.initialize_client.
  destruct (negb _ || negb _); [reflexivity |].
  destruct (RESTClient _ _); [discriminate | reflexivity].
Qed.

Lemma lazy_client_failed (self : CoinbaseMCPServer) :
  client self = None ->
  client (fst (initialize_client self)) = None ->
  lazy_client self = (self, Raise (ValueError not_initialized)).
Proof.
  intros Hnone Hfail. unfold McpServer.lazy_client.
  rewrite Hnone, Hfail, (initialize_client_failed self Hfail). reflexivity.
Qed.

(** C9.  Each operation looks for a client before it looks at its
    params.  With no client, and none after the attempt to construct one
    (as when the environment credentials are absent), the answer is the
    client-not-initialized error whatever the params are: missing fields
    and invalid values are not reported. *)
Theorem operations_need_client
    (now : Q) (params : dict) (self : CoinbaseMCPServer) :
  client self = None ->
  client (fst (initialize_client self)) = None ->
  get_accounts (PyDict params) self
  = (self, Ok {[ "error" := PyStr ("Failed to get accounts: " +:+ not_initialized);
                 "id" := default PyNone (params !! "id") ]})
  /\
  get_product_ticker (PyDict params) self
  = (self, Ok {[ "error" :=
                   PyStr ("Failed to get product ticker: " +:+ not_initialized);
                 "id" := default PyNone (params !! "id") ]})
  /\
  place_order now (PyDict params) self
  = (self, Ok {[ "error" := PyStr ("Failed to place order: " +:+ not_initialized);
                 "id" := default PyNone (params !! "id") ]}).
Proof.
  intros Hnone Hfail.
  pose proof (lazy_client_failed self Hnone Hfail) as Hlazy.
  unfold McpServer.get_accounts, McpServer.get_product_ticker,
         McpServer.place_order, try_except, bindM.
  rewrite Hlazy. unfold lift, ret. rewrite get_dict.
  repeat split.
Qed.

(** ** [place_order] around the builder *)

Lemma lazy_client_ready (self : CoinbaseMCPServer) (c : SDK.RESTClient) :
  client self = Some c -> lazy_client self = (self, Ok c).
Proof. intros Hc. unfold McpServer.lazy_client. rewrite Hc. reflexivity. Qed.

(** With a client at hand, [place_order] reports what the builder raises
    and submits what the builder returns, and nothing else. *)
Lemma place_order_ready
    (now : Q) (params : dict) (self : CoinbaseMCPServer) (c : SDK.RESTClient) :
  client self = Some c ->
  place_order now (PyDict params) self =
  (self,
   Ok match build_order_config now (PyDict params) with
      | Ok order_config =>
          match SDK.create_order c (PyDict order_config) with
          | Ok result =>
              {[ "result" := to_dict result;
                 "id" := default PyNone (params !! "id") ]}
          | Raise e =>
              {[ "error" := PyStr ("Failed to place order: " +:+ str_exn e);
                 "id" := default PyNone (params !! "id") ]}
          end
      | Raise e =>
          {[ "error" := PyStr ("Failed to place order: " +:+ str_exn e);
             "id" := default PyNone (params !! "id") ]}
      end).
Proof.
  intros Hc. unfold McpServer.place_order, try_except, bindM, lift, ret.
  rewrite (lazy_client_ready self c Hc), !get_dict.
  destruct (build_order_config now (PyDict params)) as [order_config | e];
    [| reflexivity].
  destruct (SDK.create_order c (PyDict order_config)); reflexivity.
Qed.

(** ** The id of a response *)

Lemma get_not_dict (v : pyval) (k : string) (dflt : pyval) :
  is_dict v = false -> get v k dflt = Raise (AttributeError (type_name v) "get").
Proof. destruct v; [reflexivity .. | discriminate | reflexivity]. Qed.

Lemma build_order_config_not_dict (now : Q) (v : pyval) :
  is_dict v = false -> exists e : exn, build_order_config now v = Raise e.
Proof.
  intros Hv. destruct (build_order_config now v) as [cfg | e] eqn:Hbuild; [| eauto].
  destruct (build_order_config_inv _ _ _ Hbuild) as (d & _ & _ & _ & _ & -> & _).
  discriminate Hv.
Qed.

(** An operation applied to a mapping answers, and echoes the mapping's
    id. *)
Lemma get_accounts_id (params : dict) (self : CoinbaseMCPServer) :
  exists (self' : CoinbaseMCPServer) (response : dict),
    get_accounts (PyDict params) self = (self', Ok response) /\
    response !! "id" = Some (default PyNone (params !! "id")).
Proof.
  unfold McpServer.get_accounts, try_except, bindM, lift, ret.
  rewrite !get_dict.
  destruct (lazy_client self) as [self' [c | e]]; [| answer].
  destruct (SDK.get_accounts c) as [result | e]; [| answer].
  destruct (log_accounts_count DEBUG (flatten_accounts result)); answer.
Qed.

Lemma get_product_ticker_id (params : dict) (self : CoinbaseMCPServer) :
  exists (self' : CoinbaseMCPServer) (response : dict),
    get_product_ticker (PyDict params) self = (self', Ok response) /\
    response !! "id" = Some (default PyNone (params !! "id")).
Proof.
  unfold McpServer.get_product_ticker, try_except, bindM, lift, ret.
  rewrite !get_dict.
  destruct (lazy_client self) as [self' [c | e]]; [| answer].
  destruct (truthy (default PyNone (params !! "product_id"))); [| answer].
  destruct (SDK.get_public_product c _) as [result | e]; answer.
Qed.

Lemma place_order_id (now : Q) (params : dict) (self : CoinbaseMCPServer) :
  exists (self' : CoinbaseMCPServer) (response : dict),
    place_order now (PyDict params) self = (self', Ok response) /\
    response !! "id" = Some (default PyNone (params !! "id")).
Proof.
  unfold McpServer.place_order, try_except, bindM, lift, ret.
  rewrite !get_dict.
  destruct (lazy_client self) as [self' [c | e]]; [| answer].
  destruct (build_order_config now (PyDict params)) as [cfg | e]; [| answer].
  destruct (SDK.create_order c _) as [result | e]; answer.
Qed.

(** An operation applied to anything else raises when it asks its
    params for the id. *)
Lemma get_accounts_not_dict (params : pyval) (self : CoinbaseMCPServer) :
  is_dict params = false ->
  exists self' : CoinbaseMCPServer,
    get_accounts params self
    = (self', Raise (AttributeError (type_name params) "get")).
Proof.
  intros Hv. unfold McpServer.get_accounts, try_except, bindM, lift, ret.
  rewrite !(get_not_dict params) by exact Hv.
  destruct (lazy_client self) as [self' [c | e]]; [| no_answer].
  destruct (SDK.get_accounts c) as [result | e]; [| no_answer].
  destruct (log_accounts_count DEBUG (flatten_accounts result)); no_answer.
Qed.

Lemma get_product_ticker_not_dict (params : pyval) (self : CoinbaseMCPServer) :
  is_dict params = false ->
  exists self' : CoinbaseMCPServer,
    get_product_ticker params self
    = (self', Raise (AttributeError (type_name params) "get")).
Proof.
  intros Hv. unfold McpServer.get_product_ticker, try_except, bindM, lift, ret.
  rewrite !(get_not_dict params) by exact Hv.
  destruct (lazy_client self) as [self' [c | e]]; no_answer.
Qed.

Lemma place_order_not_dict (now : Q) (params : pyval) (self : CoinbaseMCPServer) :
  is_dict params = false ->
  exists self' : CoinbaseMCPServer,
    place_order now params self
    = (self', Raise (AttributeError (type_name params) "get")).
Proof.
  intros Hv. unfold McpServer.place_order, try_except, bindM, lift, ret.
  rewrite !(get_not_dict params) by exact Hv.
  destruct (build_order_config_not_dict now params Hv) as [e0 ->].
  destruct (lazy_client self) as [self' [c | e]]; no_answer.
Qed.

(** C6 (amended).  [handle_request] answers every request that is a
    mapping, and the answer carries an id: the id found in [params] when
    the method is one of the three operations and its params are a
    mapping, the request's own id otherwise; [None] when the mapping
    looked at has no id.  In particular an unknown method is answered
    with an error that echoes the request's id unchanged. *)
Theorem handle_request_id
    (now : Q) (request : dict) (self : CoinbaseMCPServer) :
  let method := default PyNone (request !! "method") in
  exists (self' : CoinbaseMCPServer) (response : dict),
    handle_request now (PyDict request) self = (self', Ok response) /\
    response !! "id" = Some (echoed_id request) /\
    (recognized method = false ->
     self' = self /\
     response = {[ "error" := PyStr ("Unknown method: " +:+ str_of py_repr method);
                   "id" := default PyNone (request !! "id") ]}).
Proof.
  intros method.
  unfold McpServer.handle_request, echoed_id, recognized.
  fold method.
  unfold try_except at 1. unfold bindM at 1. unfold lift at 1.
  rewrite !get_dict. fold method. unfold bindM at 1. unfold lift at 1.
  set (params := default (PyDict ∅) (request !! "params")).
  destruct (eq_str method "coinbase_get_accounts") eqn:Haccounts;
    [| destruct (eq_str method "coinbase_get_product_ticker") eqn:Hticker;
       [| destruct (eq_str method "coinbase_place_order") eqn:Horder]];
    cbn [orb].
  - destruct (is_dict params) eqn:Hdict.
    + destruct params as [| | | | | | p |]; try discriminate Hdict.
      destruct (get_accounts_id p self) as (self' & response & -> & Hid).
      exists self', response. repeat split; [exact Hid | discriminate ..].
    + destruct (get_accounts_not_dict params self Hdict) as (self' & ->).
      unfold bindM, lift, ret.
      eexists _, _. split; [reflexivity |].
      split; [destruct params; try discriminate Hdict; reflexivity |].
      discriminate.
  - destruct (is_dict params) eqn:Hdict.
    + destruct params as [| | | | | | p |]; try discriminate Hdict.
      destruct (get_product_ticker_id p self) as (self' & response & -> & Hid).
      exists self', response. repeat split; [exact Hid | discriminate ..].
    + destruct (get_product_ticker_not_dict params self Hdict) as (self' & ->).
      unfold bindM, lift, ret.
      eexists _, _. split; [reflexivity |].
      split; [destruct params; try discriminate Hdict; reflexivity |].
      discriminate.
  - destruct (is_dict params) eqn:Hdict.
    + destruct params as [| | | | | | p |]; try discriminate Hdict.
      destruct (place_order_id now p self) as (self' & response & -> & Hid).
      exists self', response. repeat split; [exact Hid | discriminate ..].
    + destruct (place_order_not_dict now params self Hdict) as (self' & ->).
      unfold bindM, lift, ret.
      eexists _, _. split; [reflexivity |].
      split; [destruct params; try discriminate Hdict; reflexivity |].
      discriminate.
  - unfold bindM, lift, ret.
    eexists _, _. split; [reflexivity |]. repeat split.
Qed.

(** A request that is not a mapping makes [handle_request] itself
    raise: its handler asks the request for the id again. *)
Lemma handle_request_not_dict
    (now : Q) (request : pyval) (self : CoinbaseMCPServer) :
  is_dict request = false ->
  handle_request now request self
  = (self, Raise (AttributeError (type_name request) "get")).
Proof.
  intros Hv. unfold McpServer.handle_request, try_except, bindM, lift, ret.
  rewrite !(get_not_dict request) by exact Hv. reflexivity.
Qed.

End ServerFacts.

(* ===================================================================== *)
(** * The properties at work on the sample environment                   *)
(* ===================================================================== *)

Section SampleRuns.

#[local] Existing Instance Sample.runtime.

(** A body without method and path, and no configured defaults: 400. *)
Lemma proxy_request_credentials_witness :
  Main.proxy_request Sample.repr None None None Sample.connect
    (Ok (PyDict {[ "keyName" := PyStr "k" ]}))
  = Main.Responds 400
      (PyStr "Missing required fields: keyName, privateKey, method, path").
Proof.
  apply (proj2 (proxy_request_credentials (runtime := Sample.runtime)
            Sample.repr None None None
                  Sample.connect {[ "keyName" := PyStr "k" ]})).
  right. left. reflexivity.
Defined.



(** The exchange's 404 on the account listing: the message has
    [error 404] in it, and the proxy answers 500. *)
Lemma error_status_counterexample :
  status_at (chars "HTTP error 404: Not Found") (chars "HTTP ") [4; 0; 4] /\
  decimal_value [4; 0; 4] = 404 /\
  Sample.proxy "GET" "/api/v3/brokerage/accounts"
  = Main.Responds 500 (PyDict {[ "error" := PyStr "HTTP error 404: Not Found" ]}).
Proof.
  split; [| split; [reflexivity | vm_compute; reflexivity]].
  exists (chars "404"), (chars ": Not Found"). split; [reflexivity |].
  split; [split; [discriminate | repeat constructor] | reflexivity].
Qed.

(** The exchange's rate limit on the order listing: [Coinbase API error
    429] is answered with 429. *)
Lemma proxy_request_error_status_witness :
  exists status_code : Z,
    Sample.proxy "GET" "/api/v3/brokerage/orders"
    = Main.Responds status_code
        (PyDict {[ "error" := PyStr "Coinbase API error 429: rate limited" ]}) /\
    status_code = 429.
Proof.
  destruct (proxy_request_error_status (runtime := Sample.runtime)
            Sample.repr None None None Sample.connect
              (Sample.body "GET" "/api/v3/brokerage/orders")
              {[ "error" := PyStr "Coinbase API error 429: rate limited" ]}
              "/api/v3/brokerage/orders" "Coinbase API error 429: rate limited"
              eq_refl eq_refl eq_refl eq_refl ltac:(discriminate) eq_refl eq_refl)
    as (status_code & detail & Hproxy & _ & _ & Hstatus).
  assert (Hleft : leftmost_status (chars "Coinbase API error 429: rate limited")
                    [4; 2; 9])
    by (apply re_search_leftmost; reflexivity).
  destruct (proj1 (Hstatus [4; 2; 9] eq_refl Hleft) eq_refl) as [-> ->].
  exists 429. split; [exact Hproxy | reflexivity].
Defined.

(** The empty path has no leading slash, and is refused before any
    routing; the path [/] is routed, to the not-implemented error. *)
Lemma leading_slash_counterexample :
  startswith EmptyString "/" = false /\
  Sample.proxy "GET" EmptyString
  = Main.Responds 400
      (PyStr "Missing required fields: keyName, privateKey, method, path") /\
  Sample.proxy "GET" ("/" +:+ EmptyString)
  = Main.Responds 500
      (PyDict {[ "error" :=
         PyStr "Endpoint GET / not yet implemented in Python backend" ]}).
Proof. repeat split; vm_compute; reflexivity. Qed.

(** The accounts path without its slash. *)
Lemma proxy_request_leading_slash_witness :
  Sample.proxy "GET" "api/v3/brokerage/accounts"
  = Main.proxy_request Sample.repr None None None Sample.connect
      (Ok (PyDict (<[ "path" := PyStr "/api/v3/brokerage/accounts" ]>
                     (Sample.body "GET" "api/v3/brokerage/accounts")))).
Proof.
  apply (proxy_request_leading_slash (runtime := Sample.runtime)
            Sample.repr None None None Sample.connect
           (Sample.body "GET" "api/v3/brokerage/accounts")
           "api/v3/brokerage/accounts" eq_refl ltac:(discriminate) eq_refl).
Defined.

(** The specification's limit order: amount 1 of BTC-USD at price 100. *)
Lemma order_configuration_by_type_witness :
  exists order_config : dict,
    McpServer.build_order_config (1002 # 10) (PyDict Sample.limit_order)
    = Ok order_config /\
    order_config !! "order_configuration" =
      Some (PyDict {[ "limit_limit_gtc" :=
                        PyDict {[ "base_size" := PyInt 1;
                                  "limit_price" := PyInt 100 ]} ]}).
Proof.
  apply (proj1 (proj2 (order_configuration_by_type (runtime := Sample.runtime)
            (1002 # 10) Sample.limit_order
                         (PyStr "BTC-USD") (PyStr "buy") (PyStr "limit") (PyInt 1)
                         "BUY" "LIMIT"
                         eq_refl eq_refl eq_refl eq_refl eq_refl eq_refl
                         (or_introl eq_refl)))
               eq_refl (PyInt 100) eq_refl eq_refl).
Defined.

(** A market order for 50 carries the quote size and nothing else. *)
Example market_order_50 :
  McpServer.build_order_config (1002 # 10)
    (PyDict (<[ "amount" := PyInt 50 ]> (Sample.order "sell" "Market")))
  = Ok {[ "client_order_id" := PyStr "order_100";
          "product_id" := PyStr "BTC-USD";
          "side" := PyStr "SELL";
          "order_configuration" :=
            PyDict {[ "market_market_ioc" :=
                        PyDict {[ "quote_size" := PyInt 50 ]} ]} ]}.
Proof. vm_compute. reflexivity. Qed.

(** The side [hold] is refused. *)
Lemma order_validation_witness :
  McpServer.build_order_config (1002 # 10) (PyDict (Sample.order "hold" "market"))
  = Raise (ValueError "side must be 'BUY' or 'SELL'").
Proof.
  apply (proj1 (proj2 (proj2 (proj2 (order_validation (runtime := Sample.runtime)
            (1002 # 10)
                                       (Sample.order "hold" "market"))
                                    (PyStr "BTC-USD") (PyStr "hold")
                                    (PyStr "market") (PyInt 1)
                                    eq_refl eq_refl eq_refl eq_refl))
                      "HOLD" "MARKET" eq_refl eq_refl)).
  intros [Hside | Hside]; discriminate Hside.
Defined.

(** The side [hold] with the number 5 for type: the four fields are
    present and the side is not an allowed one, and the answer is not the
    error that names the allowed sides. *)
Lemma order_validation_counterexample :
  let params : dict :=
    {[ "product_id" := PyStr "BTC-USD";
       "side" := PyStr "hold";
       "type" := PyInt 5;
       "amount" := PyInt 1 ]} in
  upper_of (PyStr "hold") = Ok "HOLD" /\
  McpServer.build_order_config (1002 # 10) (PyDict params)
  = Raise (AttributeError "int" "upper") /\
  str_exn (AttributeError "int" "upper") = "'int' object has no attribute 'upper'".
Proof. repeat split; vm_compute; reflexivity. Qed.

(** A request without [type] is refused for that. *)
Example order_without_type :
  McpServer.build_order_config (1002 # 10)
    (PyDict (delete "type" (Sample.order "buy" "market")))
  = Raise (ValueError "type is required").
Proof. vm_compute. reflexivity. Qed.

(** The keys of the sample limit order's configuration. *)
Lemma order_config_keys_witness :
  exists order_config : dict,
    McpServer.build_order_config (1002 # 10) (PyDict Sample.limit_order)
    = Ok order_config /\
    dom order_config
    = ({[ "client_order_id"; "product_id"; "side"; "order_configuration" ]}
       : gset string).
Proof.
  assert (Hbuild :
    McpServer.build_order_config (1002 # 10) (PyDict Sample.limit_order)
    = Ok (<[ "order_configuration" :=
               PyDict {[ "limit_limit_gtc" :=
                           PyDict {[ "base_size" := PyInt 1;
                                     "limit_price" := PyInt 100 ]} ]} ]>
            {[ "client_order_id" := PyStr "order_100";
               "product_id" := PyStr "BTC-USD";
               "side" := PyStr "BUY" ]}))
    by (vm_compute; reflexivity).
  eexists. split; [exact Hbuild |].
  exact (proj1 (order_config_keys (runtime := Sample.runtime)
            (1002 # 10) _ _ Hbuild)).
Defined.

(** Two calls three tenths of a second apart, in the same whole second,
    get the same token. *)
Lemma client_order_id_counterexample :
  ~ (1002 # 10 == 1005 # 10)%Q /\
  match McpServer.build_order_config (1002 # 10) (PyDict (Sample.order "buy" "market")),
        McpServer.build_order_config (1005 # 10) (PyDict (Sample.order "sell" "market"))
  with
  | Ok config1, Ok config2 =>
      config1 !! "client_order_id" = Some (PyStr "order_100") /\
      config2 !! "client_order_id" = Some (PyStr "order_100")
  | _, _ => False
  end.
Proof.
  split; [intros H; vm_compute in H; discriminate H |].
  vm_compute. split; reflexivity.
Qed.

(** Two calls in different seconds get different tokens. *)
Lemma client_order_id_per_second_witness :
  exists config1 config2 : dict,
    McpServer.build_order_config (1002 # 10) (PyDict (Sample.order "buy" "market"))
    = Ok config1 /\
    McpServer.build_order_config (1017 # 10) (PyDict (Sample.order "buy" "market"))
    = Ok config2 /\
    config1 !! "client_order_id" <> config2 !! "client_order_id".
Proof.
  pose (config := fun token : string =>
    (<[ "order_configuration" :=
          PyDict {[ "market_market_ioc" := PyDict {[ "quote_size" := PyInt 1 ]} ]} ]>
       {[ "client_order_id" := PyStr token;
          "product_id" := PyStr "BTC-USD";
          "side" := PyStr "BUY" ]} : dict)).
  assert (Hbuild1 :
    McpServer.build_order_config (1002 # 10) (PyDict (Sample.order "buy" "market"))
    = Ok (config "order_100")) by (vm_compute; reflexivity).
  assert (Hbuild2 :
    McpServer.build_order_config (1017 # 10) (PyDict (Sample.order "buy" "market"))
    = Ok (config "order_101")) by (vm_compute; reflexivity).
  exists (config "order_100"), (config "order_101").
  split; [exact Hbuild1 |]. split; [exact Hbuild2 |].
  intros Hsame.
  apply (proj2 (proj2 (client_order_id_per_second (runtime := Sample.runtime)
            _ _ _ _ _ _ Hbuild1 Hbuild2)))
    in Hsame.
  vm_compute in Hsame. discriminate Hsame.
Defined.

(** Without credentials, an order request that has no fields at all is
    answered with the client error, not with a validation error. *)
Lemma operations_need_client_witness :
  McpServer.place_order None None None Sample.connect 1 (PyDict ∅) Sample.bare
  = (Sample.bare,
     Ok {[ "error" :=
             PyStr "Failed to place order: Coinbase client not initialized - check environment variables";
           "id" := PyNone ]}).
Proof.
  exact (proj2 (proj2 (operations_need_client (runtime := Sample.runtime)
            true None None None Sample.connect
                         1 ∅ Sample.bare eq_refl eq_refl))).
Defined.

(** A ticker request with its id at the top level is answered without
    it, and an unknown method does not echo an id given in params. *)
Lemma response_id_counterexample :
  let request : dict :=
    {[ "method" := PyStr "coinbase_get_product_ticker";
       "params" := PyDict {[ "product_id" := PyStr "BTC-USD" ]};
       "id" := PyInt 7 ]} in
  let unknown : dict :=
    {[ "method" := PyStr "ping"; "params" := PyDict {[ "id" := PyInt 7 ]} ]} in
  request !! "id" = Some (PyInt 7) /\
  snd (Sample.serve 1 request)
  = Ok {[ "result" := PyDict {[ "product_id" := PyStr "BTC-USD" ]};
          "id" := PyNone ]} /\
  snd (Sample.serve 1 unknown)
  = Ok {[ "error" := PyStr "Unknown method: ping"; "id" := PyNone ]}.
Proof. repeat split; vm_compute; reflexivity. Qed.

(** An unknown method with its id at the top level. *)
Lemma handle_request_id_witness :
  exists (self' : McpServer.CoinbaseMCPServer) (response : dict),
    Sample.serve 1 {[ "method" := PyStr "ping"; "id" := PyInt 7 ]}
    = (self', Ok response) /\
    response = {[ "error" := PyStr "Unknown method: ping"; "id" := PyInt 7 ]}.
Proof.
  destruct (handle_request_id (runtime := Sample.runtime)
            Sample.repr true (Some "organizations/o/apiKeys/k")
              (Some "k") (Some "secret") Sample.connect 1
              {[ "method" := PyStr "ping"; "id" := PyInt 7 ]} Sample.ready)
    as (self' & response & Hserve & _ & Hunknown).
  exists self', response. split; [exact Hserve |].
  exact (proj2 (Hunknown eq_refl)).
Defined.

(** The routing table at work: the ticker route takes its product id
    from the segment before [ticker], with and without the leading
    slash, and in either case of the verb. *)
Example ticker_route :
  Sample.proxy "get" "api/v3/brokerage/products/BTC-USD/ticker"
  = Main.Returns (PyDict {[ "product_id" := PyStr "BTC-USD" ]}) /\
  Sample.proxy "GET" "/api/v3/brokerage/products/BTC-USD/ticker"
  = Main.Returns (PyDict {[ "product_id" := PyStr "BTC-USD" ]}).
Proof. split; vm_compute; reflexivity. Qed.

(** A limit order without a price, sent to a server that has a client:
    the validation error comes back and nothing is submitted. *)
Example limit_order_without_price :
  snd (Sample.serve 1
         {[ "method" := PyStr "coinbase_place_order";
            "params" := PyDict (Sample.order "buy" "limit") ]})
  = Ok {[ "error" := PyStr "Failed to place order: price is required for limit orders";
          "id" := PyNone ]}.
Proof. vm_compute. reflexivity. Qed.

(** Field-by-field resolution: the request brings its own key name and
    takes the key id and the private key from the configuration. *)
Example mixed_credentials :
  Main.resolve_credentials (Some "name-0") (Some "id-0") (Some "key-0")
    (PyDict {[ "keyName" := PyStr "name-1"; "privateKey" := PyStr EmptyString ]})
  = Ok (PyStr "name-1", PyStr "id-0", PyStr "key-0").
Proof. vm_compute. reflexivity. Qed.

End SampleRuns.

(* ===================================================================== *)
(** * Further properties of the order builder                            *)
(* ===================================================================== *)

Section MoreOrderFacts.

Context {runtime : Runtime}.

Import McpServer.

Variable now : Q.

Lemma check_required_same (fields : list string) (d1 d2 : dict) :
  (forall k : string, In k fields -> is_Some (d1 !! k) <-> is_Some (d2 !! k)) ->
  check_required fields (PyDict d1) = check_required fields (PyDict d2).
Proof.
  induction fields as [| field fields IH]; intros Hsame; cbn; [reflexivity |].
  rewrite (bool_decide_ext _ _ (Hsame field (or_introl eq_refl))).
  rewrite IH; [reflexivity |].
  intros k Hk. apply Hsame. right. exact Hk.
Qed.

(** The builder reads five keys of [params] and no other: two mappings
    that agree on them are treated alike, whatever else they hold. *)
Theorem build_order_config_reads_five_fields (d1 d2 : dict) :
  (forall k : string, In k order_fields -> d1 !! k = d2 !! k) ->
  build_order_config now (PyDict d1) = build_order_config now (PyDict d2).
Proof.
  intros Hsame. unfold build_order_config.
  rewrite (check_required_same required_fields d1 d2).
  2:{ intros k Hk. rewrite Hsame; [reflexivity |].
      cbn in *. tauto. }
  cbn [getitem get].
  rewrite !(Hsame _) by (cbn; tauto).
  reflexivity.
Qed.

(** The letter case of [side] and [type] does not matter: a request and
    the same request with either spelled in another case get the same
    outcome, configuration or error. *)
Theorem build_order_config_case_insensitive
    (params : dict) (side side' type type' : string) :
  params !! "side" = Some (PyStr side) ->
  params !! "type" = Some (PyStr type) ->
  upper side' = upper side ->
  upper type' = upper type ->
  build_order_config now
    (PyDict (<[ "side" := PyStr side' ]> (<[ "type" := PyStr type' ]> params)))
  = build_order_config now (PyDict params).
Proof.
  intros Hside Htype Hupper_side Hupper_type. unfold build_order_config.
  rewrite (check_required_same required_fields _ params).
  2:{ intros k [<- | [<- | [<- | [<- | []]]]].
      - rewrite !lookup_insert_ne by discriminate. reflexivity.
      - rewrite lookup_insert_eq, Hside. split; eauto.
      - rewrite lookup_insert_ne, lookup_insert_eq, Htype by discriminate.
        split; eauto.
      - rewrite !lookup_insert_ne by discriminate. reflexivity. }
  cbn [getitem get].
  rewrite lookup_insert_eq.
  rewrite (lookup_insert_ne _ "side" "type"), lookup_insert_eq by discriminate.
  rewrite !lookup_insert_ne by discriminate.
  rewrite Hside, Htype.
  destruct (params !! "product_id"); [| reflexivity].
  cbn [bind upper_of]. rewrite Hupper_side, Hupper_type. reflexivity.
Qed.

End MoreOrderFacts.

(* ===================================================================== *)
(** * Further properties of the stdio server                             *)
(* ===================================================================== *)

(** [json.dumps] encodes a mapping exactly when it encodes its values. *)
Lemma serializable_dict (d : dict) :
  serializable (PyDict d) = true
  <-> forall (k : string) (v : pyval), d !! k = Some v -> serializable v = true.
Proof.
  cbn [serializable].
  apply (map_fold_weak_ind
           (fun (r : bool) (m : dict) =>
              r = true <-> forall k v, m !! k = Some v -> serializable v = true)).
  - split; [intros _ k v Hk; rewrite lookup_empty in Hk; discriminate Hk
           | reflexivity].
  - intros i x m r Hi IH. rewrite andb_true_iff, IH. split.
    + intros [Hx Hm] k v Hk.
      destruct (decide (i = k)) as [<- | Hne].
      * rewrite lookup_insert_eq in Hk. congruence.
      * rewrite lookup_insert_ne in Hk by exact Hne. exact (Hm k v Hk).
    + intros Hall. split.
      * apply (Hall i). apply lookup_insert_eq.
      * intros k v Hk. apply (Hall k).
        rewrite lookup_insert_ne; [exact Hk |]. intros ->. congruence.
Qed.

Lemma serializable_error_line (msg : string) (id : pyval) :
  serializable id = true ->
  serializable (PyDict {[ "error" := PyStr msg; "id" := id ]}) = true.
Proof.
  intros Hid. apply serializable_dict. intros k v Hk.
  destruct (decide (k = "error")) as [-> | Hne].
  - rewrite lookup_insert_eq in Hk. injection Hk as <-. reflexivity.
  - rewrite lookup_insert_ne in Hk by congruence.
    apply lookup_singleton_Some in Hk as [_ <-]. exact Hid.
Qed.

Section MoreServerFacts.

Context {runtime : Runtime}.

Import McpServer.

Variable py_repr : pyval -> string.
Variable DEBUG : bool.
Variable COINBASE_KEY_NAME : option string.
Variable COINBASE_KEY_ID : option string.
Variable COINBASE_PRIVATE_KEY : option string.
Variable RESTClient : pyval -> pyval -> result SDK.RESTClient.
Variable json_error : pyval -> string.

Local Abbreviation initialize_client :=
  (McpServer.initialize_client COINBASE_KEY_NAME COINBASE_KEY_ID
                               COINBASE_PRIVATE_KEY RESTClient).
Local Abbreviation init :=
  (McpServer.init COINBASE_KEY_NAME COINBASE_KEY_ID
                  COINBASE_PRIVATE_KEY RESTClient).
Local Abbreviation lazy_client :=
  (McpServer.lazy_client COINBASE_KEY_NAME COINBASE_KEY_ID
                         COINBASE_PRIVATE_KEY RESTClient).
Local Abbreviation get_accounts :=
  (McpServer.get_accounts DEBUG COINBASE_KEY_NAME COINBASE_KEY_ID
                          COINBASE_PRIVATE_KEY RESTClient).
Local Abbreviation get_product_ticker :=
  (McpServer.get_product_ticker COINBASE_KEY_NAME COINBASE_KEY_ID
                                COINBASE_PRIVATE_KEY RESTClient).
Local Abbreviation place_order :=
  (McpServer.place_order COINBASE_KEY_NAME COINBASE_KEY_ID
                         COINBASE_PRIVATE_KEY RESTClient).
Local Abbreviation handle_request :=
  (McpServer.handle_request py_repr DEBUG COINBASE_KEY_NAME COINBASE_KEY_ID
                            COINBASE_PRIVATE_KEY RESTClient).
Local Abbreviation serve_line :=
  (McpServer.serve_line py_repr DEBUG COINBASE_KEY_NAME COINBASE_KEY_ID
                        COINBASE_PRIVATE_KEY RESTClient json_error).
Local Abbreviation serve :=
  (McpServer.serve py_repr DEBUG COINBASE_KEY_NAME COINBASE_KEY_ID
                   COINBASE_PRIVATE_KEY RESTClient json_error).

(** ** The client *)

(** The server starts with a client exactly when the key name and the
    private key are set in the environment and the SDK accepts the key id
    (which may be unset) and the private key; the key name itself is not
    handed to the SDK. *)
Theorem init_client (c : SDK.RESTClient) :
  client init = Some c
  <-> truthy (of_env COINBASE_KEY_NAME) = true
      /\ truthy (of_env COINBASE_PRIVATE_KEY) = true
      /\ RESTClient (of_env COINBASE_KEY_ID) (of_env COINBASE_PRIVATE_KEY) = Ok c.
Proof.
  unfold McpServer.init, McpServer.initialize_client.
  destruct (truthy (of_env COINBASE_KEY_NAME));
    destruct (truthy (of_env COINBASE_PRIVATE_KEY)); cbn [negb orb fst client];
    try (split; [discriminate | intros (? & ? & ?); discriminate]).
  destruct (RESTClient _ _) as [c' | e]; cbn [fst client].
  - split; [intros [= ->]; auto | intros (_ & _ & [= ->]); reflexivity].
  - split; [discriminate | intros (_ & _ & ?); discriminate].
Qed.

Lemma lazy_client_state (self : CoinbaseMCPServer) (c : SDK.RESTClient) :
  client self = Some c -> fst (lazy_client self) = self.
Proof. intros Hc. unfold McpServer.lazy_client. rewrite Hc. reflexivity. Qed.

Lemma get_accounts_state (params : pyval) (self : CoinbaseMCPServer) :
  fst (get_accounts params self) = fst (lazy_client self).
Proof.
  unfold McpServer.get_accounts, try_except, bindM, lift, ret.
  destruct (lazy_client self) as [self' [c | e]]; cbn [fst].
  - destruct (SDK.get_accounts c) as [result | e];
      [destruct (log_accounts_count DEBUG (flatten_accounts result)) |];
      destruct (get params "id" PyNone); reflexivity.
  - destruct (get params "id" PyNone); reflexivity.
Qed.

Lemma get_product_ticker_state (params : pyval) (self : CoinbaseMCPServer) :
  fst (get_product_ticker params self) = fst (lazy_client self).
Proof.
  unfold McpServer.get_product_ticker, try_except, bindM, lift, ret.
  destruct (lazy_client self) as [self' [c | e]]; cbn [fst].
  - destruct (get params "product_id" PyNone) as [product_id | e];
      [destruct (truthy product_id);
       [destruct (SDK.get_public_product c product_id) |] |];
      destruct (get params "id" PyNone); reflexivity.
  - destruct (get params "id" PyNone); reflexivity.
Qed.

Lemma place_order_state (now : Q) (params : pyval) (self : CoinbaseMCPServer) :
  fst (place_order now params self) = fst (lazy_client self).
Proof.
  unfold McpServer.place_order, try_except, bindM, lift, ret.
  destruct (lazy_client self) as [self' [c | e]]; cbn [fst].
  - destruct (build_order_config now params) as [order_config | e];
      [destruct (SDK.create_order c (PyDict order_config)) |];
      destruct (get params "id" PyNone); reflexivity.
  - destruct (get params "id" PyNone); reflexivity.
Qed.

(** What a request does to the server: nothing, or what the search for a
    client did. *)
Lemma handle_request_state (now : Q) (request : pyval) (self : CoinbaseMCPServer) :
  fst (handle_request now request self) = self
  \/ fst (handle_request now request self) = fst (lazy_client self).
Proof.
  unfold McpServer.handle_request, try_except, bindM, lift, ret.
  destruct (get request "method" PyNone) as [method | e];
    [| destruct (get request "id" PyNone); left; reflexivity].
  destruct (get request "params" (PyDict ∅)) as [params | e];
    [| destruct (get request "id" PyNone); left; reflexivity].
  destruct (eq_str method "coinbase_get_accounts").
  { pose proof (get_accounts_state params self) as Hstate.
    destruct (get_accounts params self) as [self' [response | e]];
      [| destruct (get request "id" PyNone)]; right; exact Hstate. }
  destruct (eq_str method "coinbase_get_product_ticker").
  { pose proof (get_product_ticker_state params self) as Hstate.
    destruct (get_product_ticker params self) as [self' [response | e]];
      [| destruct (get request "id" PyNone)]; right; exact Hstate. }
  destruct (eq_str method "coinbase_place_order").
  { pose proof (place_order_state now params self) as Hstate.
    destruct (place_order now params self) as [self' [response | e]];
      [| destruct (get request "id" PyNone)]; right; exact Hstate. }
  destruct (get request "id" PyNone); left; reflexivity.
Qed.

(** A server that has a client keeps it, whatever lines it reads: no
    request replaces or drops the client, and none changes the server in
    any other way. *)
Theorem serve_keeps_client
    (lines : list (Q * result pyval)) (self : CoinbaseMCPServer)
    (c : SDK.RESTClient) :
  client self = Some c ->
  snd (fst (serve lines self)) = self.
Proof.
  intros Hc. induction lines as [| [now line] lines IH]; [reflexivity |].
  cbn [McpServer.serve].
  assert (Hstate : fst (serve_line now line self) = self).
  { unfold McpServer.serve_line, try_except, bindM, lift.
    destruct line as [request | e0].
    - pose proof (handle_request_state now request self) as Hstate.
      rewrite (lazy_client_state self c Hc) in Hstate.
      assert (Hsame : fst (handle_request now request self) = self) by tauto.
      destruct (handle_request now request self) as [self' [response | e]];
        cbn [fst] in Hsame; subst self'.
      + unfold print_json, bindM, lift, ret.
        destruct (json_dumps json_error (PyDict response)) as [[] | e];
          [reflexivity |].
        destruct e; destruct (json_dumps _ _); reflexivity.
      + unfold print_json, bindM, lift, ret.
        destruct e; destruct (json_dumps _ _); reflexivity.
    - unfold print_json, bindM, lift, ret.
      destruct e0; destruct (json_dumps _ _); reflexivity. }
  destruct (serve_line now line self) as [self' [printed | e]];
    cbn [fst] in Hstate; subst self'.
  - destruct (serve lines self) as [[more final] ended]. exact IH.
  - reflexivity.
Qed.

(** With a client at hand the environment is not looked at again: what a
    request is answered with does not depend on the credentials
    configured, nor on whether a client could still be constructed. *)
Theorem handle_request_reuses_client
    (now : Q) (request : pyval) (self : CoinbaseMCPServer) (c : SDK.RESTClient)
    (key_name key_id private_key : option string)
    (constructor : pyval -> pyval -> result SDK.RESTClient) :
  client self = Some c ->
  handle_request now request self
  = McpServer.handle_request py_repr DEBUG key_name key_id private_key
      constructor now request self.
Proof.
  intros Hc.
  unfold McpServer.handle_request, McpServer.get_accounts,
    McpServer.get_product_ticker, McpServer.place_order,
    try_except, bindM, lift, ret.
  destruct (get request "method" PyNone) as [method | e]; [| reflexivity].
  destruct (get request "params" (PyDict ∅)) as [params | e]; [| reflexivity].
  destruct (eq_str method "coinbase_get_accounts");
    [| destruct (eq_str method "coinbase_get_product_ticker");
       [| destruct (eq_str method "coinbase_place_order"); [| reflexivity]]];
    unfold McpServer.lazy_client; rewrite Hc; reflexivity.
Qed.

(** ** The operations with a client at hand *)

(** A ticker request whose product id is missing or falsy ([None], the
    empty string, zero) is refused without a call to the exchange; any
    other product id is passed on as it is, and the answer is the
    exchange's, an object being replaced by its attributes, or its
    error. *)
Theorem get_product_ticker_ready
    (params : dict) (self : CoinbaseMCPServer) (c : SDK.RESTClient) :
  client self = Some c ->
  get_product_ticker (PyDict params) self =
  (self,
   Ok (let product_id := default PyNone (params !! "product_id") in
       let id := default PyNone (params !! "id") in
       if truthy product_id then
         match SDK.get_public_product c product_id with
         | Ok result => {[ "result" := to_dict result; "id" := id ]}
         | Raise e =>
             {[ "error" := PyStr ("Failed to get product ticker: " +:+ str_exn e);
                "id" := id ]}
         end
       else
         {[ "error" := PyStr "Failed to get product ticker: product_id is required";
            "id" := id ]})).
Proof.
  intros Hc. unfold McpServer.get_product_ticker, try_except, bindM, lift, ret.
  rewrite (lazy_client_ready _ _ _ _ self c Hc), !get_dict.
  destruct (truthy (default PyNone (params !! "product_id"))); [| reflexivity].
  destruct (SDK.get_public_product c _); reflexivity.
Qed.

(** The account listing and the debug switch.  With [DEBUG] off, what the
    exchange returns is answered with, flattened.  With [DEBUG] on, the
    accounts are counted for the log first, and a listing whose
    [accounts] has no length is answered with that failure instead. *)
Theorem get_accounts_ready
    (params : dict) (self : CoinbaseMCPServer) (c : SDK.RESTClient)
    (result : pyval) :
  client self = Some c ->
  SDK.get_accounts c = Ok result ->
  let id := default PyNone (params !! "id") in
  (DEBUG = false ->
   get_accounts (PyDict params) self
   = (self, Ok {[ "result" := flatten_accounts result; "id" := id ]}))
  /\
  (DEBUG = true ->
   forall (attrs : dict) (e : exn),
     flatten_accounts result = PyDict attrs ->
     len (default (PyList []) (attrs !! "accounts")) = Raise e ->
     get_accounts (PyDict params) self
     = (self, Ok {[ "error" := PyStr ("Failed to get accounts: " +:+ str_exn e);
                    "id" := id ]}))
  /\
  (DEBUG = true ->
   forall (attrs : dict) (n : Z),
     flatten_accounts result = PyDict attrs ->
     len (default (PyList []) (attrs !! "accounts")) = Ok n ->
     get_accounts (PyDict params) self
     = (self, Ok {[ "result" := flatten_accounts result; "id" := id ]})).
Proof.
  intros Hc Hresult id.
  unfold McpServer.get_accounts, try_except, bindM, lift, ret.
  rewrite (lazy_client_ready _ _ _ _ self c Hc), Hresult, !get_dict.
  unfold log_accounts_count.
  split; [| split].
  - intros ->. reflexivity.
  - intros -> attrs e -> ->. reflexivity.
  - intros -> attrs n -> ->. reflexivity.
Qed.

(** Flattening an account listing: the listing object becomes its
    attribute mapping, every account object in its [accounts] list
    becomes its own attribute mapping, and nothing else changes. *)
Theorem flatten_accounts_list
    (cls : string) (attrs : dict) (accounts : list pyval) :
  attrs !! "accounts" = Some (PyList accounts) ->
  exists flat : dict,
    flatten_accounts (PyObj cls attrs) = PyDict flat /\
    flat !! "accounts" = Some (PyList (map to_dict accounts)) /\
    (forall k : string, k <> "accounts" -> flat !! k = attrs !! k) /\
    (forall account : pyval,
       In account (map to_dict accounts) -> forall cls' attrs', account <> PyObj cls' attrs') /\
    flatten_accounts (PyDict flat) = PyDict flat.
Proof.
  intros Haccounts. eexists. unfold flatten_accounts. rewrite Haccounts.
  cbn [has_iter elements_of].
  split; [reflexivity |]. split; [apply lookup_insert_eq |].
  split; [intros k Hk; apply lookup_insert_ne; congruence |].
  split; [| reflexivity].
  intros account Hin cls' attrs' ->.
  apply in_map_iff in Hin as (a & Ha & _). destruct a; discriminate Ha.
Qed.

(** ** The loop *)

Lemma get_accounts_normalized (params : dict) (self : CoinbaseMCPServer) :
  exists (self' : CoinbaseMCPServer) (response : dict),
    get_accounts (PyDict params) self = (self', Ok response) /\ normalized response.
Proof.
  unfold McpServer.get_accounts, try_except, bindM, lift, ret.
  rewrite !get_dict.
  destruct (lazy_client self) as [self' [c | e]]; [| shaped].
  destruct (SDK.get_accounts c) as [result | e]; [| shaped].
  destruct (log_accounts_count DEBUG (flatten_accounts result)); shaped.
Qed.

Lemma get_product_ticker_normalized (params : dict) (self : CoinbaseMCPServer) :
  exists (self' : CoinbaseMCPServer) (response : dict),
    get_product_ticker (PyDict params) self = (self', Ok response)
    /\ normalized response.
Proof.
  unfold McpServer.get_product_ticker, try_except, bindM, lift, ret.
  rewrite !get_dict.
  destruct (lazy_client self) as [self' [c | e]]; [| shaped].
  destruct (truthy (default PyNone (params !! "product_id"))); [| shaped].
  destruct (SDK.get_public_product c _) as [result | e]; shaped.
Qed.

Lemma place_order_normalized
    (now : Q) (params : dict) (self : CoinbaseMCPServer) :
  exists (self' : CoinbaseMCPServer) (response : dict),
    place_order now (PyDict params) self = (self', Ok response)
    /\ normalized response.
Proof.
  unfold McpServer.place_order, try_except, bindM, lift, ret.
  rewrite !get_dict.
  destruct (lazy_client self) as [self' [c | e]]; [| shaped].
  destruct (build_order_config now (PyDict params)) as [cfg | e]; [| shaped].
  destruct (SDK.create_order c _) as [result | e]; shaped.
Qed.

(** [handle_request] answers a mapping with a response of one of the two
    shapes, and raises on anything else. *)
Lemma handle_request_normalized
    (now : Q) (request : pyval) (self : CoinbaseMCPServer) :
  (exists (self' : CoinbaseMCPServer) (response : dict),
     handle_request now request self = (self', Ok response)
     /\ normalized response)
  \/ handle_request now request self
     = (self, Raise (AttributeError (type_name request) "get")).
Proof.
  destruct (is_dict request) eqn:Hrequest;
    [| right; apply handle_request_not_dict; exact Hrequest].
  left. destruct request as [| | | | | | request |]; try discriminate Hrequest.
  unfold McpServer.handle_request.
  unfold try_except at 1. unfold bindM at 1. unfold lift at 1.
  rewrite !get_dict. unfold bindM at 1. unfold lift at 1.
  set (method := default PyNone (request !! "method")).
  set (params := default (PyDict ∅) (request !! "params")).
  destruct (eq_str method "coinbase_get_accounts");
    [| destruct (eq_str method "coinbase_get_product_ticker");
       [| destruct (eq_str method "coinbase_place_order")]].
  - destruct (is_dict params) eqn:Hdict.
    + destruct params as [| | | | | | p |]; try discriminate Hdict.
      destruct (get_accounts_normalized p self) as (self' & response & -> & Hn).
      eauto.
    + destruct (get_accounts_not_dict DEBUG COINBASE_KEY_NAME COINBASE_KEY_ID
                  COINBASE_PRIVATE_KEY RESTClient params self Hdict) as (self' & ->).
      unfold bindM, lift, ret. shaped.
  - destruct (is_dict params) eqn:Hdict.
    + destruct params as [| | | | | | p |]; try discriminate Hdict.
      destruct (get_product_ticker_normalized p self)
        as (self' & response & -> & Hn).
      eauto.
    + destruct (get_product_ticker_not_dict COINBASE_KEY_NAME COINBASE_KEY_ID
                  COINBASE_PRIVATE_KEY RESTClient params self Hdict) as (self' & ->).
      unfold bindM, lift, ret. shaped.
  - destruct (is_dict params) eqn:Hdict.
    + destruct params as [| | | | | | p |]; try discriminate Hdict.
      destruct (place_order_normalized now p self) as (self' & response & -> & Hn).
      eauto.
    + destruct (place_order_not_dict COINBASE_KEY_NAME COINBASE_KEY_ID
                  COINBASE_PRIVATE_KEY RESTClient now params self Hdict)
        as (self' & ->).
      unfold bindM, lift, ret. shaped.
  - unfold bindM, lift, ret. shaped.
Qed.

Lemma print_error_line (msg : string) (self : CoinbaseMCPServer) :
  print_json json_error {[ "error" := PyStr msg; "id" := PyNone ]} self
  = (self, Ok {[ "error" := PyStr msg; "id" := PyNone ]}).
Proof.
  unfold print_json, bindM, lift, ret, json_dumps.
  rewrite serializable_error_line by reflexivity. reflexivity.
Qed.

(** What the loop prints for a line: the response itself when it can be
    encoded, and an error line with a null id otherwise. *)
Lemma serve_line_cases (now : Q) (line : result pyval) (self : CoinbaseMCPServer) :
  serve_line now line self =
  match line with
  | Ok request =>
      match handle_request now request self with
      | (self', Ok response) =>
          (self',
           Ok (if serializable (PyDict response) then response
               else server_error (json_error (PyDict response))))
      | (self', Raise e) => (self', Ok (server_error (str_exn e)))
      end
  | Raise (JSONDecodeError msg) => (self, Ok (invalid_json msg))
  | Raise e => (self, Ok (server_error (str_exn e)))
  end.
Proof.
  unfold McpServer.serve_line, try_except, bindM, lift.
  destruct line as [request | e0].
  - destruct (handle_request_normalized now request self)
      as [(self' & response & Hanswer & _) | Hraise].
    + rewrite Hanswer. unfold print_json at 1. unfold bindM, lift, ret, json_dumps.
      destruct (serializable (PyDict response)); [reflexivity |].
      apply print_error_line.
    + rewrite Hraise. apply print_error_line.
  - destruct e0; apply print_error_line.
Qed.

Lemma serve_line_prints (now : Q) (line : result pyval) (self : CoinbaseMCPServer) :
  exists (self' : CoinbaseMCPServer) (printed : dict),
    serve_line now line self = (self', Ok printed)
    /\ normalized printed /\ serializable (PyDict printed) = true.
Proof.
  rewrite serve_line_cases.
  assert (Herror : forall msg : string,
            normalized (server_error msg)
            /\ serializable (PyDict (server_error msg)) = true).
  { intros msg. split; [right; eexists _, _; reflexivity |].
    apply serializable_error_line. reflexivity. }
  destruct line as [request | e0].
  - destruct (handle_request_normalized now request self)
      as [(self' & response & -> & Hn) | ->].
    + eexists _, _. split; [reflexivity |].
      destruct (serializable (PyDict response)) eqn:Hs; [auto | apply Herror].
    + eexists _, _. split; [reflexivity | apply Herror].
  - destruct e0; eexists _, _; (split; [reflexivity |]); try apply Herror.
    split; [right; eexists _, _; reflexivity |].
    apply serializable_error_line. reflexivity.
Qed.

(** The loop ends only with its input: whatever the lines are, none makes
    it end with an exception.  It prints one line for each line read, and
    each printed line has one of the two shapes of a response and is a
    mapping that [json.dumps] encodes. *)
Theorem serve_never_fails
    (lines : list (Q * result pyval)) (self : CoinbaseMCPServer) :
  exists (printed : list dict) (final : CoinbaseMCPServer),
    serve lines self = (printed, final, None) /\
    List.length printed = List.length lines /\
    Forall (fun line : dict =>
              normalized line /\ serializable (PyDict line) = true) printed.
Proof.
  revert self. induction lines as [| [now line] lines IH]; intros self.
  - exists [], self. repeat split. constructor.
  - cbn [McpServer.serve].
    destruct (serve_line_prints now line self) as (self' & first & -> & Hn & Hs).
    destruct (IH self') as (more & final & -> & Hlen & Hall).
    exists (first :: more), final. split; [reflexivity |]. split.
    + cbn. rewrite Hlen. reflexivity.
    + constructor; [split; assumption | exact Hall].
Qed.

(** A line that is not JSON costs one error line with a null id and
    nothing else: the loop prints what it prints without that line, with
    the error line at the line's place, and ends with the same server. *)
Theorem serve_after_invalid_json
    (before after : list (Q * result pyval)) (now : Q) (msg : string)
    (self : CoinbaseMCPServer) :
  exists (printed1 printed2 : list dict),
    List.length printed1 = List.length before /\
    fst (fst (serve (before ++ after) self)) = (printed1 ++ printed2)%list /\
    serve (before ++ (now, Raise (JSONDecodeError msg)) :: after) self =
    ((printed1 ++ invalid_json msg :: printed2)%list,
     snd (fst (serve (before ++ after) self)),
     snd (serve (before ++ after) self)).
Proof.
  revert self. induction before as [| [now0 line0] before IH]; intros self.
  - exists [], (fst (fst (serve after self))).
    cbn [app McpServer.serve List.length]. rewrite serve_line_cases.
    destruct (serve after self) as [[more final] ended]. repeat split.
  - cbn [app McpServer.serve].
    destruct (serve_line_prints now0 line0 self) as (self' & first & -> & _).
    destruct (IH self') as (printed1 & printed2 & Hlen & Hprinted & ->).
    destruct (serve (before ++ after) self') as [[more final] ended].
    cbn [fst snd] in *. subst more.
    exists (first :: printed1), printed2. cbn [List.length app].
    rewrite Hlen. repeat split.
Qed.

(** A request that is not a mapping (a list, a string, a number) is
    answered with a server error naming its type, with a null id, and
    leaves the server as it was. *)
Theorem serve_line_not_a_mapping
    (now : Q) (request : pyval) (self : CoinbaseMCPServer) :
  is_dict request = false ->
  serve_line now (Ok request) self
  = (self,
     Ok (server_error ("'" +:+ type_name request
                       +:+ "' object has no attribute 'get'"))).
Proof.
  intros Hrequest. rewrite serve_line_cases.
  rewrite (handle_request_not_dict py_repr DEBUG COINBASE_KEY_NAME COINBASE_KEY_ID
             COINBASE_PRIVATE_KEY RESTClient now request self Hrequest).
  reflexivity.
Qed.

Lemma handle_request_operation
    (now : Q) (request params : dict) (self : CoinbaseMCPServer) (name : string) :
  request !! "method" = Some (PyStr name) ->
  request !! "params" = Some (PyDict params) ->
  handle_request now (PyDict request) self =
  if (name =? "coinbase_get_accounts")%string then
    try_except (get_accounts (PyDict params))
      (fun e => ret {[ "error" := PyStr (str_exn e);
                       "id" := default PyNone (request !! "id") ]}) self
  else if (name =? "coinbase_get_product_ticker")%string then
    try_except (get_product_ticker (PyDict params))
      (fun e => ret {[ "error" := PyStr (str_exn e);
                       "id" := default PyNone (request !! "id") ]}) self
  else if (name =? "coinbase_place_order")%string then
    try_except (place_order now (PyDict params))
      (fun e => ret {[ "error" := PyStr (str_exn e);
                       "id" := default PyNone (request !! "id") ]}) self
  else
    (self, Ok {[ "error" := PyStr ("Unknown method: " +:+ name);
                 "id" := default PyNone (request !! "id") ]}).
Proof.
  intros Hmethod Hparams. unfold McpServer.handle_request.
  unfold try_except at 1. unfold bindM at 1. unfold lift at 1.
  rewrite !get_dict. unfold bindM at 1. unfold lift at 1.
  rewrite Hmethod, Hparams. cbn [from_option id eq_str].
  destruct (name =? "coinbase_get_accounts")%string;
    [| destruct (name =? "coinbase_get_product_ticker")%string;
       [| destruct (name =? "coinbase_place_order")%string]];
    unfold try_except, bindM, lift, ret;
    repeat match goal with
           | |- context [match ?x self with _ => _ end] => destruct (x self) as [? []]
           end; reflexivity.
Qed.

Lemma get_product_ticker_with_client
    (params : dict) (self : CoinbaseMCPServer) (c : SDK.RESTClient)
    (product_id result : pyval) :
  client self = Some c ->
  params !! "product_id" = Some product_id ->
  truthy product_id = true ->
  SDK.get_public_product c product_id = Ok result ->
  get_product_ticker (PyDict params) self
  = (self, Ok {[ "result" := to_dict result;
                 "id" := default PyNone (params !! "id") ]}).
Proof.
  intros Hc Hproduct Htruthy Hresult.
  unfold McpServer.get_product_ticker, try_except, bindM, lift, ret.
  rewrite (lazy_client_ready _ _ _ _ self c Hc), !get_dict, Hproduct.
  cbn [from_option id]. rewrite Htruthy, Hresult. reflexivity.
Qed.

(** A ticker object is answered with its attributes as they are.  When
    one of them is itself an object, the response cannot be encoded, and
    the line printed is a server error with a null id, whatever id the
    request carried. *)
Theorem ticker_with_nested_object
    (now : Q) (request params attrs : dict) (self : CoinbaseMCPServer)
    (c : SDK.RESTClient) (product_id : pyval) (cls k : string) (v : pyval) :
  client self = Some c ->
  request !! "method" = Some (PyStr "coinbase_get_product_ticker") ->
  request !! "params" = Some (PyDict params) ->
  params !! "product_id" = Some product_id ->
  truthy product_id = true ->
  SDK.get_public_product c product_id = Ok (PyObj cls attrs) ->
  attrs !! k = Some v ->
  serializable v = false ->
  serve_line now (Ok (PyDict request)) self
  = (self,
     Ok (server_error
           (json_error (PyDict {[ "result" := PyDict attrs;
                                  "id" := default PyNone (params !! "id") ]})))).
Proof.
  intros Hc Hmethod Hparams Hproduct Htruthy Hresult Hk Hv.
  rewrite serve_line_cases.
  rewrite (handle_request_operation now request params self _ Hmethod Hparams).
  cbn [String.eqb Ascii.eqb Bool.eqb]. unfold try_except.
  rewrite (get_product_ticker_with_client params self c product_id _
             Hc Hproduct Htruthy Hresult).
  cbn [to_dict].
  assert (Hs : serializable (PyDict {[ "result" := PyDict attrs;
                                       "id" := default PyNone (params !! "id") ]})
               = false).
  { apply not_true_is_false. intros Hs.
    pose proof (proj1 (serializable_dict _) Hs "result" (PyDict attrs)
                  (lookup_insert_eq _ _ _)) as Hattrs.
    pose proof (proj1 (serializable_dict _) Hattrs k v Hk). congruence. }
  rewrite Hs. reflexivity.
Qed.


End MoreServerFacts.

(* ===================================================================== *)
(** * Further properties of the HTTP proxy                               *)
(* ===================================================================== *)

(** ** Reading back a printed number *)

Section PrintedNumber.

Context {runtime : Runtime}.

Local Arguments String.append !_ _ / : simpl nomatch.

Lemma list_ascii_of_string_append (a b : string) :
  list_ascii_of_string (a +:+ b)
  = (list_ascii_of_string a ++ list_ascii_of_string b)%list.
Proof. induction a as [| c a IH]; cbn; [reflexivity | now rewrite IH]. Qed.

(** The characters of a text that begins with ASCII characters. *)
Lemma chars_ascii_append (a b : string) :
  ascii_text a = true ->
  chars (a +:+ b) = (map single (list_ascii_of_string a) ++ chars b)%list.
Proof.
  unfold ascii_text.
  induction a as [| c a IH];
    cbn [list_ascii_of_string forallb String.append map app]; [reflexivity |].
  intros Ha. apply andb_true_iff in Ha as [Hc Ha].
  rewrite (chars_ascii c _ Hc), (IH Ha). reflexivity.
Qed.

Lemma is_digit_ascii (c : ascii) : is_digit c = true -> is_ascii c = true.
Proof.
  unfold is_digit, is_ascii. intros Hc.
  apply andb_true_iff in Hc as [_ Hc]. apply Nat.leb_le in Hc.
  apply Nat.ltb_lt. lia.
Qed.

Lemma digits_ascii_text (s : string) :
  forallb is_digit (list_ascii_of_string s) = true -> ascii_text s = true.
Proof.
  unfold ascii_text.
  induction s as [| c s IH]; cbn [list_ascii_of_string forallb]; [reflexivity |].
  intros Hs. apply andb_true_iff in Hs as [Hc Hs].
  rewrite (is_digit_ascii c Hc), (IH Hs). reflexivity.
Qed.

(** A text of ASCII digits is a run of decimal digits. *)
Lemma digits_of_run (s : string) :
  forallb is_digit (list_ascii_of_string s) = true ->
  Forall2 (fun c d => digit c = Some d)
          (map single (list_ascii_of_string s)) (digits_of s).
Proof.
  unfold digits_of.
  induction s as [| c s IH]; cbn [list_ascii_of_string forallb map];
    [constructor |].
  intros Hs. apply andb_true_iff in Hs as [Hc Hs].
  constructor; [| exact (IH Hs)].
  rewrite (digit_ascii c (is_digit_ascii c Hc)), Hc. reflexivity.
Qed.

Lemma digits_of_length (s : string) :
  List.length (digits_of s) = String.length s.
Proof.
  unfold digits_of. rewrite length_map.
  induction s as [| c s IH]; cbn; [reflexivity | now rewrite IH].
Qed.

Lemma decimal_value_snoc (a : string) (c : ascii) :
  decimal_value (digits_of (a +:+ String c EmptyString))
  = 10 * decimal_value (digits_of a) + digit_value c.
Proof.
  unfold decimal_value, digits_of.
  rewrite list_ascii_of_string_append, map_app, fold_left_app.
  reflexivity.
Qed.

Lemma pretty_N_go_append (x : N) (s : string) :
  pretty_N_go x s = pretty_N_go x EmptyString +:+ s.
Proof.
  revert s. induction (N.lt_wf_0 x) as [x _ IH]; intros s.
  destruct (N.eq_dec x 0%N) as [-> | Hx]; [reflexivity |].
  assert (0 < x)%N as Hpos by lia.
  assert (x `div` 10 < x)%N as Hlt by (apply N.div_lt; lia).
  rewrite !(pretty_N_go_step x) by exact Hpos.
  rewrite (IH _ Hlt (String (pretty_N_char (x `mod` 10)) s)).
  rewrite (IH _ Hlt (String (pretty_N_char (x `mod` 10)) EmptyString)).
  rewrite append_assoc. reflexivity.
Qed.

Lemma pretty_N_char_value (d : N) :
  (d < 10)%N -> digit_value (pretty_N_char d) = Z.of_N d.
Proof.
  intros Hd.
  assert (d = 0 \/ d = 1 \/ d = 2 \/ d = 3 \/ d = 4 \/ d = 5 \/ d = 6 \/ d = 7
          \/ d = 8 \/ d = 9)%N as H by lia.
  repeat (destruct H as [-> | H]; [reflexivity |]). subst d. reflexivity.
Qed.

Lemma pretty_N_char_digit (d : N) : is_digit (pretty_N_char d) = true.
Proof. unfold pretty_N_char. repeat case_match; reflexivity. Qed.

Lemma decimal_value_pretty_N_go (x : N) :
  decimal_value (digits_of (pretty_N_go x EmptyString)) = Z.of_N x.
Proof.
  induction (N.lt_wf_0 x) as [x _ IH].
  destruct (N.eq_dec x 0%N) as [-> | Hx]; [reflexivity |].
  rewrite pretty_N_go_step by lia.
  rewrite pretty_N_go_append, decimal_value_snoc.
  rewrite IH by (apply N.div_lt; lia).
  rewrite pretty_N_char_value by (apply N.mod_lt; lia).
  rewrite (N.div_mod x 10) at 3 by lia. lia.
Qed.

(** The digits printed for a number denote it. *)
Lemma decimal_value_pretty (n : N) :
  decimal_value (digits_of (pretty n)) = Z.of_N n.
Proof.
  unfold pretty, pretty_N. destruct (decide (n = 0%N)) as [-> | Hn];
    [reflexivity | apply decimal_value_pretty_N_go].
Qed.

Lemma pretty_N_go_digits (x : N) (s : string) :
  forallb is_digit (list_ascii_of_string s) = true ->
  forallb is_digit (list_ascii_of_string (pretty_N_go x s)) = true.
Proof.
  revert s. induction (N.lt_wf_0 x) as [x _ IH]; intros s Hs.
  destruct (N.eq_dec x 0%N) as [-> | Hx]; [exact Hs |].
  rewrite pretty_N_go_step by lia.
  apply IH; [apply N.div_lt; lia |].
  cbn. rewrite pretty_N_char_digit. exact Hs.
Qed.

Lemma pretty_N_go_nonempty (x : N) (s : string) :
  s <> EmptyString -> pretty_N_go x s <> EmptyString.
Proof.
  revert s. induction (N.lt_wf_0 x) as [x _ IH]; intros s Hs.
  destruct (N.eq_dec x 0%N) as [-> | Hx]; [exact Hs |].
  rewrite pretty_N_go_step by lia.
  apply IH; [apply N.div_lt; lia | discriminate].
Qed.

Lemma pretty_digits (n : N) :
  pretty n <> EmptyString
  /\ forallb is_digit (list_ascii_of_string (pretty n)) = true.
Proof.
  unfold pretty, pretty_N. destruct (decide (n = 0%N)) as [-> | Hn].
  - split; [discriminate | reflexivity].
  - split.
    + rewrite pretty_N_go_step by lia. apply pretty_N_go_nonempty. discriminate.
    + apply pretty_N_go_digits. reflexivity.
Qed.

Lemma re_search_skip (c : string) (cs : list string) :
  match_here (c :: cs) = None -> re_search (c :: cs) = re_search cs.
Proof. intros Hhere. cbn [re_search]. rewrite Hhere. reflexivity. Qed.

Lemma re_search_here (cs : list string) (ds : list Z) :
  match_here cs = Some ds -> re_search cs = Some ds.
Proof. intros Hhere. destruct cs; cbn [re_search]; rewrite Hhere; reflexivity. Qed.

(** The search finds a number printed after [Coinbase API error ]. *)
Lemma re_search_embedded (n : N) (rest : string) :
  no_digit_first (chars rest) ->
  re_search (chars ("Coinbase API error " +:+ pretty n +:+ rest))
  = Some (digits_of (pretty n)).
Proof.
  intros Hrest. destruct (pretty_digits n) as [Hne Hdigits].
  rewrite (chars_ascii_append "Coinbase API error ") by reflexivity.
  rewrite (chars_ascii_append (pretty n)) by (apply digits_ascii_text; exact Hdigits).
  cbn [list_ascii_of_string map app].
  do 13 (rewrite re_search_skip by reflexivity).
  apply re_search_here, match_here_iff.
  exists (map single (list_ascii_of_string (pretty n))), (chars rest).
  split; [reflexivity |]. split; [| exact Hrest].
  split; [| apply digits_of_run; exact Hdigits].
  destruct (pretty n); [congruence | discriminate].
Qed.

(** A status the upstream embeds as [Coinbase API error NNN] is recovered
    exactly, whatever number NNN is, as long as [int] converts a number
    of its length: nothing restricts it to the status codes of HTTP.  A
    longer NNN makes the conversion fail. *)
Theorem status_code_of_embedded (n : N) (rest : string) :
  no_digit_first (chars rest) ->
  (exceeds_limit (String.length (pretty n)) = false ->
   Main.status_code_of (PyStr ("Coinbase API error " +:+ pretty n +:+ rest))
   = Ok (Z.of_N n))
  /\
  (exceeds_limit (String.length (pretty n)) = true ->
   Main.status_code_of (PyStr ("Coinbase API error " +:+ pretty n +:+ rest))
   = Raise (limit_error (String.length (pretty n)))).
Proof.
  intros Hrest. rewrite status_code_of_str, (re_search_embedded n rest Hrest).
  replace (contains "Coinbase API error"
             ("Coinbase API error " +:+ pretty n +:+ rest)) with true
    by reflexivity.
  unfold int_of_digits. rewrite digits_of_length.
  split; intros ->; [rewrite decimal_value_pretty |]; reflexivity.
Qed.

End PrintedNumber.

Section MoreMainFacts.

Context {runtime : Runtime}.

Variable py_repr : pyval -> string.
Variable COINBASE_KEY_NAME : option string.
Variable COINBASE_KEY_ID : option string.
Variable COINBASE_PRIVATE_KEY : option string.
Variable RESTClient : pyval -> pyval -> result SDK.RESTClient.

Local Abbreviation resolve_credentials :=
  (Main.resolve_credentials COINBASE_KEY_NAME COINBASE_KEY_ID COINBASE_PRIVATE_KEY).
Local Abbreviation make_request := (Main.make_request py_repr RESTClient).
Local Abbreviation proxy_request :=
  (Main.proxy_request py_repr COINBASE_KEY_NAME COINBASE_KEY_ID
                      COINBASE_PRIVATE_KEY RESTClient).

(** ** What the proxy returns *)

(** The proxy returns a value (status 200) only for a body that is a
    mapping with its four required values, and the value is then what the
    dispatcher returned for the normalized path, a mapping or other
    container without an [error] key.  A result with an [error] key is
    never returned, even one the exchange itself delivered. *)
Theorem proxy_request_returns (request_json : result pyval) (v : pyval) :
  proxy_request request_json = Main.Returns v ->
  exists (body : dict) (path : string),
    request_json = Ok (PyDict body) /\
    body !! "path" = Some (PyStr path) /\
    path <> EmptyString /\
    v = make_request (default PyNone (body !! "method"))
          (PyStr (if startswith path "/" then path else "/" +:+ path))
          (prefer (body !! "keyName") COINBASE_KEY_NAME)
          (prefer (body !! "privateKey") COINBASE_PRIVATE_KEY)
          (prefer (body !! "keyId") COINBASE_KEY_ID)
          (default PyNone (body !! "payload")) /\
    has "error" v = Ok false.
Proof.
  intros H. unfold Main.proxy_request in H.
  match type of H with
  | match ?r with _ => _ end = _ =>
      assert (Hr : r = Ok v)
        by (destruct r as [x | e];
            [injection H as ->; reflexivity | destruct e; discriminate H]);
      clear H
  end.
  destruct request_json as [body | e]; [| discriminate Hr].
  cbn [bind] in Hr.
  destruct body as [| | | | | | body |]; try discriminate Hr.
  rewrite (resolve_credentials_dict COINBASE_KEY_NAME COINBASE_KEY_ID
             COINBASE_PRIVATE_KEY) in Hr.
  cbn [bind] in Hr. rewrite !get_dict in Hr. cbn [bind forallb] in Hr.
  destruct (negb _) eqn:Hvalid in Hr; [discriminate Hr |].
  destruct (eq_none (prefer (body !! "keyName") COINBASE_KEY_NAME));
    [discriminate Hr |].
  destruct (eq_none (prefer (body !! "privateKey") COINBASE_PRIVATE_KEY));
    [discriminate Hr |].
  apply negb_false_iff in Hvalid.
  rewrite !andb_true_iff in Hvalid. destruct Hvalid as (_ & _ & _ & Hpath & _).
  destruct (body !! "path") as [path_in |] eqn:Hlookup; [| discriminate Hpath].
  cbn [from_option id] in Hr, Hpath.
  destruct path_in as [| | | | path | | |]; try discriminate Hr.
  cbn [startswith_of bind str_of] in Hr.
  exists body, path. split; [reflexivity |]. split; [exact Hlookup |].
  split; [intros ->; discriminate Hpath |].
  replace (if startswith path "/" then PyStr path else PyStr ("/" +:+ path))
    with (PyStr (if startswith path "/" then path else "/" +:+ path)) in Hr
    by (destruct (startswith path "/"); reflexivity).
  set (result := make_request _ _ _ _ _ _) in *.
  destruct (has "error" result) as [[] | e] eqn:Herror; cbn [bind] in Hr.
  - destruct (getitem result "error") as [error | e]; cbn [bind] in Hr;
      [destruct (Main.status_code_of error); discriminate Hr | discriminate Hr].
  - injection Hr as <-. split; [reflexivity | exact Herror].
  - discriminate Hr.
Qed.

(** The key name is required and then not used: two requests that differ
    only in their (truthy) key names are answered alike. *)
Theorem proxy_request_ignores_key_name (body : dict) (name1 name2 : pyval) :
  truthy name1 = true ->
  truthy name2 = true ->
  proxy_request (Ok (PyDict (<[ "keyName" := name1 ]> body)))
  = proxy_request (Ok (PyDict (<[ "keyName" := name2 ]> body))).
Proof.
  intros H1 H2. unfold Main.proxy_request. cbn [bind].
  rewrite !(resolve_credentials_dict COINBASE_KEY_NAME COINBASE_KEY_ID
              COINBASE_PRIVATE_KEY).
  cbn [bind]. rewrite !get_dict. cbn [bind forallb].
  rewrite !lookup_insert_eq. rewrite !lookup_insert_ne by discriminate.
  assert (P1 : prefer (Some name1) COINBASE_KEY_NAME = name1)
    by (unfold prefer; rewrite H1; reflexivity).
  assert (P2 : prefer (Some name2) COINBASE_KEY_NAME = name2)
    by (unfold prefer; rewrite H2; reflexivity).
  rewrite P1, P2, H1, H2.
  rewrite (truthy_not_none _ H1), (truthy_not_none _ H2).
  unfold Main.make_request, Main.get_client. reflexivity.
Qed.

(** A body that is not JSON is answered with 400, and a JSON body that is
    not an object (a list, a string, a number, null) with 500 and the
    text of the attribute error, not with the 400 of a missing field. *)
Theorem proxy_request_bad_body :
  (forall msg : string,
     proxy_request (Raise (JSONDecodeError msg))
     = Main.Responds 400 (PyStr "Invalid JSON in request body"))
  /\
  (forall body : pyval,
     is_dict body = false ->
     proxy_request (Ok body)
     = Main.Responds 500
         (PyStr ("'" +:+ type_name body +:+ "' object has no attribute 'get'"))).
Proof.
  split; [reflexivity |].
  intros body Hbody. destruct body; try discriminate Hbody; reflexivity.
Qed.

(** ** The verb *)

(** The verb of a routed request is read without regard to case: two
    spellings of it get the same result. *)
Theorem make_request_verb_case
    (method method' path : string) (key_name private_key key_id payload : pyval) :
  upper method' = upper method ->
  routed method path = true ->
  make_request (PyStr method') (PyStr path) key_name private_key key_id payload
  = make_request (PyStr method) (PyStr path) key_name private_key key_id payload.
Proof.
  intros Hupper Hrouted. unfold Main.make_request.
  destruct (Main.get_client RESTClient key_name private_key key_id)
    as [client | e]; [| reflexivity].
  unfold routed in Hrouted.
  cbn [bind Main.and_then Main.is_verb eq_str upper_of startswith_of
       endswith_of str_of].
  rewrite Hupper.
  destruct (path =? "/api/v3/brokerage/accounts")%string;
    destruct (upper method =? "GET")%string;
    destruct (upper method =? "POST")%string;
    destruct (path =? "/api/v3/brokerage/orders")%string;
    destruct (startswith path "/api/v3/brokerage/products/");
    destruct (endswith path "/ticker");
    cbn in Hrouted; try discriminate Hrouted; reflexivity.
Qed.

End MoreMainFacts.

(* ===================================================================== *)
(** * The further properties at work on the sample environment           *)
(* ===================================================================== *)

Section MoreSampleRuns.

#[local] Existing Instance Sample.runtime.

(** An order request with a note and an id beside its fields. *)
Lemma build_order_config_reads_five_fields_witness :
  McpServer.build_order_config 1
    (PyDict (<[ "note" := PyStr "urgent" ]> (<[ "id" := PyInt 7 ]> Sample.limit_order)))
  = McpServer.build_order_config 1 (PyDict Sample.limit_order).
Proof.
  apply (build_order_config_reads_five_fields (runtime := Sample.runtime) 1).
  intros k Hk. rewrite !lookup_insert_ne; [reflexivity | |];
    intros <-; cbn in Hk; repeat (destruct Hk as [Hk | Hk]; [discriminate Hk |]);
    exact Hk.
Defined.

(** [Buy] and [LIMIT] for [buy] and [limit]. *)
Lemma build_order_config_case_insensitive_witness :
  McpServer.build_order_config 1
    (PyDict (<[ "side" := PyStr "Buy" ]>
               (<[ "type" := PyStr "LIMIT" ]> Sample.limit_order)))
  = McpServer.build_order_config 1 (PyDict Sample.limit_order).
Proof.
  exact (build_order_config_case_insensitive (runtime := Sample.runtime)
            1 Sample.limit_order
           "buy" "Buy" "limit" "LIMIT" eq_refl eq_refl eq_refl eq_refl).
Defined.

(** A key name and a private key in the environment, and no key id. *)
Lemma init_client_witness :
  McpServer.client (McpServer.init (Some "name") None (Some "secret") Sample.connect)
  = Some Sample.exchange.
Proof.
  apply (proj2 (init_client (Some "name") None (Some "secret") Sample.connect
                  Sample.exchange)).
  repeat split.
Defined.

(** Two lines, one of them not JSON, leave the server as it was. *)
Lemma serve_keeps_client_witness :
  snd (fst (McpServer.serve Sample.repr true None None None Sample.connect
              Sample.json_error
              [(1%Q, Raise (JSONDecodeError "Expecting value"));
               (2%Q, Ok (PyDict {[ "method" := PyStr "coinbase_get_accounts" ]}))]
              Sample.nested_server))
  = Sample.nested_server.
Proof.
  exact (serve_keeps_client (runtime := Sample.runtime)
            Sample.repr true None None None Sample.connect
           Sample.json_error _ Sample.nested_server Sample.nested_exchange eq_refl).
Defined.

(** A connected server answers alike with and without credentials. *)
Lemma handle_request_reuses_client_witness :
  McpServer.handle_request Sample.repr true None None None Sample.connect 1
    (PyDict {[ "method" := PyStr "coinbase_get_accounts" ]}) Sample.nested_server
  = McpServer.handle_request Sample.repr true (Some "name") (Some "id")
      (Some "secret") (fun _ _ => Raise (SdkError "unreachable")) 1
    (PyDict {[ "method" := PyStr "coinbase_get_accounts" ]}) Sample.nested_server.
Proof.
  exact (handle_request_reuses_client (runtime := Sample.runtime)
            Sample.repr true None None None
           Sample.connect 1 _ Sample.nested_server Sample.nested_exchange
           (Some "name") (Some "id") (Some "secret")
           (fun _ _ => Raise (SdkError "unreachable")) eq_refl).
Defined.

(** A ticker request with an empty product id. *)
Lemma get_product_ticker_ready_witness :
  McpServer.get_product_ticker None None None Sample.connect
    (PyDict {[ "product_id" := PyStr EmptyString; "id" := PyInt 3 ]})
    Sample.nested_server
  = (Sample.nested_server,
     Ok {[ "error" := PyStr "Failed to get product ticker: product_id is required";
           "id" := PyInt 3 ]}).
Proof.
  exact (get_product_ticker_ready None None None Sample.connect
           {[ "product_id" := PyStr EmptyString; "id" := PyInt 3 ]}
           Sample.nested_server Sample.nested_exchange eq_refl).
Defined.

(** A listing whose [accounts] is [None], with the debug switch on. *)
Lemma get_accounts_ready_witness :
  let c : SDK.RESTClient :=
    {| SDK.get_accounts := Ok (PyObj "ListAccountsResponse" {[ "accounts" := PyNone ]});
       SDK.get_public_product := fun _ => Ok PyNone;
       SDK.create_order := fun _ => Ok PyNone;
       SDK.list_orders := Ok PyNone |} in
  McpServer.get_accounts true None None None Sample.connect (PyDict ∅)
    {| McpServer.client := Some c |}
  = ({| McpServer.client := Some c |},
     Ok {[ "error" :=
             PyStr "Failed to get accounts: object of type 'NoneType' has no len()";
           "id" := PyNone ]}).
Proof.
  intros c.
  exact (proj1 (proj2 (get_accounts_ready (runtime := Sample.runtime)
            true None None None Sample.connect ∅
                         {| McpServer.client := Some c |} c _ eq_refl eq_refl))
               eq_refl {[ "accounts" := PyNone ]}
               (TypeError "object of type 'NoneType' has no len()")
               eq_refl eq_refl).
Defined.

(** With a client, an order without a price is reported and not
    submitted. *)
Lemma place_order_ready_witness :
  McpServer.place_order None None None Sample.connect 1
    (PyDict (Sample.order "buy" "limit")) Sample.nested_server
  = (Sample.nested_server,
     Ok {[ "error" := PyStr "Failed to place order: price is required for limit orders";
           "id" := PyNone ]}).
Proof.
  exact (place_order_ready (runtime := Sample.runtime)
            None None None Sample.connect 1
           (Sample.order "buy" "limit") Sample.nested_server
           Sample.nested_exchange eq_refl).
Defined.

(** A request that is a list. *)
Lemma serve_line_not_a_mapping_witness :
  Sample.serve_line (PyList [PyInt 1]) Sample.bare
  = (Sample.bare,
     Ok {[ "error" := PyStr "Server error: 'list' object has no attribute 'get'";
           "id" := PyNone ]}).
Proof.
  exact (serve_line_not_a_mapping (runtime := Sample.runtime)
            Sample.repr true None None None Sample.connect
           Sample.json_error 1 (PyList [PyInt 1]) Sample.bare eq_refl).
Defined.

(** The ticker of the nested exchange holds a session object: the line
    printed is the server error, and the id 5 of the request is gone. *)
Lemma ticker_with_nested_object_witness :
  Sample.serve_line
    (PyDict {[ "method" := PyStr "coinbase_get_product_ticker";
               "params" := PyDict {[ "product_id" := PyStr "BTC-USD";
                                     "id" := PyInt 5 ]} ]})
    Sample.nested_server
  = (Sample.nested_server,
     Ok {[ "error" :=
             PyStr "Server error: Object of type Session is not JSON serializable";
           "id" := PyNone ]}).
Proof.
  exact (ticker_with_nested_object (runtime := Sample.runtime)
            Sample.repr true None None None Sample.connect
           Sample.json_error 1
           {[ "method" := PyStr "coinbase_get_product_ticker";
              "params" := PyDict {[ "product_id" := PyStr "BTC-USD";
                                    "id" := PyInt 5 ]} ]}
           {[ "product_id" := PyStr "BTC-USD"; "id" := PyInt 5 ]}
           {[ "product_id" := PyStr "BTC-USD"; "session" := PyObj "Session" ∅ ]}
           Sample.nested_server Sample.nested_exchange (PyStr "BTC-USD")
           "GetProductResponse" "session" (PyObj "Session" ∅)
           eq_refl eq_refl eq_refl eq_refl eq_refl eq_refl eq_refl eq_refl).
Defined.

(** The listing of the nested exchange, flattened. *)
Lemma flatten_accounts_list_witness :
  exists flat : dict,
    McpServer.flatten_accounts (PyObj "ListAccountsResponse" Sample.listing)
    = PyDict flat /\
    flat !! "accounts"
    = Some (PyList (map to_dict [Sample.account "a-1" "BTC";
                                 Sample.account "a-2" "USD"])) /\
    McpServer.flatten_accounts (PyDict flat) = PyDict flat.
Proof.
  destruct (flatten_accounts_list (runtime := Sample.runtime)
            "ListAccountsResponse" Sample.listing
              [Sample.account "a-1" "BTC"; Sample.account "a-2" "USD"] eq_refl)
    as (flat & Hflat & Haccounts & _ & _ & Hagain).
  exists flat. split; [exact Hflat | split; [exact Haccounts | exact Hagain]].
Defined.


(** The status 429, followed by a colon. *)
Lemma status_code_of_embedded_witness :
  Main.status_code_of (PyStr "Coinbase API error 429: rate limited") = Ok 429.
Proof.
  exact (proj1 (status_code_of_embedded (runtime := Sample.runtime)
                  429 ": rate limited" eq_refl) eq_refl).
Defined.

(** The ticker of the sample exchange, returned by the proxy. *)
Lemma proxy_request_returns_witness :
  exists (body : dict) (path : string),
    Ok (PyDict (Sample.body "GET" "api/v3/brokerage/products/BTC-USD/ticker"))
    = Ok (PyDict body) /\
    body !! "path" = Some (PyStr path) /\
    has "error" (PyDict {[ "product_id" := PyStr "BTC-USD" ]}) = Ok false.
Proof.
  assert (Hproxy :
    Main.proxy_request Sample.repr None None None Sample.connect
      (Ok (PyDict (Sample.body "GET" "api/v3/brokerage/products/BTC-USD/ticker")))
    = Main.Returns (PyDict {[ "product_id" := PyStr "BTC-USD" ]}))
    by (vm_compute; reflexivity).
  destruct (proxy_request_returns (runtime := Sample.runtime)
            Sample.repr None None None Sample.connect _ _ Hproxy)
    as (body & path & Hbody & Hpath & _ & _ & Herror).
  exists body, path. repeat split; assumption.
Defined.

(** Two key names. *)
Lemma proxy_request_ignores_key_name_witness :
  Main.proxy_request Sample.repr None None None Sample.connect
    (Ok (PyDict (<[ "keyName" := PyStr "one" ]>
                   (Sample.body "GET" "/api/v3/brokerage/orders"))))
  = Main.proxy_request Sample.repr None None None Sample.connect
      (Ok (PyDict (<[ "keyName" := PyStr "another" ]>
                     (Sample.body "GET" "/api/v3/brokerage/orders")))).
Proof.
  exact (proxy_request_ignores_key_name (runtime := Sample.runtime)
            Sample.repr None None None Sample.connect
           (Sample.body "GET" "/api/v3/brokerage/orders")
           (PyStr "one") (PyStr "another") eq_refl eq_refl).
Defined.

(** A body that is the empty list. *)
Lemma proxy_request_bad_body_witness :
  Main.proxy_request Sample.repr None None None Sample.connect (Ok (PyList []))
  = Main.Responds 500 (PyStr "'list' object has no attribute 'get'").
Proof.
  exact (proj2 (proxy_request_bad_body (runtime := Sample.runtime)
            Sample.repr None None None Sample.connect)
               (PyList []) eq_refl).
Defined.

(** [post] for [POST] on the orders path. *)
Lemma make_request_verb_case_witness :
  Main.make_request Sample.repr Sample.connect (PyStr "post")
    (PyStr "/api/v3/brokerage/orders") (PyStr "k") (PyStr "secret") PyNone PyNone
  = Main.make_request Sample.repr Sample.connect (PyStr "POST")
      (PyStr "/api/v3/brokerage/orders") (PyStr "k") (PyStr "secret") PyNone PyNone.
Proof.
  exact (make_request_verb_case (runtime := Sample.runtime)
            Sample.repr Sample.connect "POST" "post"
           "/api/v3/brokerage/orders" (PyStr "k") (PyStr "secret") PyNone PyNone
           eq_refl eq_refl).
Defined.


End MoreSampleRuns.
